(** * The Monte Carlo packet-transport kernel of TARDIS

    A shallow embedding of [tardis/montecarlo_multizone.pyx]: the line
    search, the macro atom, the packet mover, the four distance functions,
    the per-packet event loop and the driver that records the outcome of
    every packet.

    The kernel computes on [float_type_t] (IEEE binary64) and [int_type_t]
    (int64).  The embedding is written once, over an interface of the
    floating-point operations the source uses, and is read at two
    instances: Rocq's primitive binary64 floats, where every definition
    runs, and the real numbers, the exact arithmetic the formulas of the
    kernel are designed in.  Indices are integers of [Z]; they stay far
    inside the int64 range for any table that fits in memory, so no
    wrap-around occurs. *)

From Stdlib Require Import ZArith List Bool String Lia.
From Stdlib Require Import Reals Lra.
From Stdlib Require Import Floats.PrimFloat.
From Stdlib Require Floats.FloatOps Numbers.Cyclic.Int63.Uint63.
Import ListNotations.

Set Implicit Arguments.
Set Warnings "-inexact-float".

Local Open Scope Z_scope.

(** ** The arithmetic of [float_type_t] *)

(** The operations on [float_type_t] that occur in the source, and the
    literal constants it writes.  The square root is an operation of
    IEEE 754 and belongs here.  [abs] is the function that the call
    [abs(...)] of the source reaches in the compiled module; the instances
    say which one that is. *)
Class Float64 (F : Type) : Type := {
  fadd : F -> F -> F;
  fsub : F -> F -> F;
  fmul : F -> F -> F;
  fdiv : F -> F -> F;
  fneg : F -> F;
  flt : F -> F -> bool;
  fle : F -> F -> bool;
  feq : F -> F -> bool;
  sqrt : F -> F;                (* sqrt of math.h, correctly rounded *)
  abs : F -> F;                 (* what the call abs(x) computes *)
  f0 : F;                       (* 0.0 *)
  f1 : F;                       (* 1.0 *)
  f2 : F;                       (* 2 *)
  lit_1e99 : F;                 (* 1e99 *)
  lit_6_652486em25 : F;         (* 6.652486e-25 *)
  lit_1em7 : F;                 (* 1e-7 *)
  (* [constants.cgs.c.value] of astropy, the speed of light in cm/s *)
  cgs_c : F
}.

Declare Scope f64_scope.
Delimit Scope f64_scope with f64.
Infix "+." := fadd (at level 50, left associativity) : f64_scope.
Infix "-." := fsub (at level 50, left associativity) : f64_scope.
Infix "*." := fmul (at level 40, left associativity) : f64_scope.
Infix "/." := fdiv (at level 40, left associativity) : f64_scope.
Infix "<." := flt (at level 70, no associativity) : f64_scope.
Infix "<=." := fle (at level 70, no associativity) : f64_scope.
Infix "==." := feq (at level 70, no associativity) : f64_scope.
Notation "x >. y" := (flt y x)
  (at level 70, no associativity, only parsing) : f64_scope.
Notation "-. x" := (fneg x) (at level 35, right associativity) : f64_scope.
Local Open Scope f64_scope.

(** [cdef extern from "math.h"]: the logarithm of the C library, which no
    standard fixes bit for bit. *)
Class MathH (F : Type) : Type := {
  log : F -> F
}.

(** [cdef extern from "randomkit/randomkit.h"]: the generator state and
    [rk_double], which returns a uniform draw and advances the state. *)
Class RandomKit (F : Type) : Type := {
  rk_state : Type;
  rk_double : rk_state -> F * rk_state
}.

(** ** Results of code that can fault or run for ever *)

Inductive Res (A : Type) : Type :=
| Ok (a : A)
| Fault          (* undefined in C: a read through a NULL pointer, x % 0 *)
| OutOfFuel.     (* the fuel of a [while True] loop ran out *)
Arguments Ok {A} a.
Arguments Fault {A}.
Arguments OutOfFuel {A}.

Definition bind {A B : Type} (m : Res A) (k : A -> Res B) : Res B :=
  match m with
  | Ok a => k a
  | Fault => Fault
  | OutOfFuel => OutOfFuel
  end.

Notation "x <- m ;; k" := (bind m (fun x => k))
  (at level 61, m at next level, right associativity).
Notation "' p <- m ;; k" := (bind m (fun p => k))
  (at level 61, p pattern, m at next level, right associativity).

(** ** Arrays behind raw pointers *)

(** The source reads arrays through [float_type_t*] and [int_type_t*] with
    bounds checks switched off.  An array is the list of its cells; a read
    inside the array returns the cell, a read outside it returns whatever
    lies in memory there, which the embedding fixes to a default [d]. *)
Definition get {A : Type} (d : A) (a : list A) (i : Z) : A :=
  if i <? 0 then d else nth (Z.to_nat i) a d.

Fixpoint set_nth {A : Type} (a : list A) (n : nat) (v : A) : list A :=
  match a, n with
  | [], _ => []
  | _ :: t, O => v :: t
  | h :: t, S n' => h :: set_nth t n' v
  end.

(** [a[i] = v]; a write outside the array is left out of the model. *)
Definition set {A : Type} (a : list A) (i : Z) (v : A) : list A :=
  if i <? 0 then a else set_nth a (Z.to_nat i) v.

(** A pointer attribute of a [cdef class] is NULL until it is assigned. *)
Definition Ptr (A : Type) : Type := option (list A).

Definition load {A : Type} (d : A) (p : Ptr A) (i : Z) : Res A :=
  match p with
  | Some a => Ok (get d a i)
  | None => Fault
  end.

(** What a [print] statement writes. *)
Inductive Val (F : Type) : Type :=
| VS (s : string)
| VF (x : F)
| VI (n : Z).
Arguments VS {F} s.
Arguments VF {F} x.
Arguments VI {F} n.

Section Kernel.

Context {F : Type} {F64 : Float64 F} {M : MathH F} {RK : RandomKit F}.

(** [x ** 2], taken as the product [x * x]. *)
Definition sqr (x : F) : F := x *. x.

(** *** Module constants *)

Definition miss_distance : F := lit_1e99.
Definition c : F := cgs_c.
Definition inverse_c : F := f1 /. c.
Definition sigma_thomson : F := lit_6_652486em25.
Definition inverse_sigma_thomson : F := f1 /. sigma_thomson.

(** *** [binary_search] *)

(** The [while imax - imin > 2] loop; [fuel] bounds the iterations. *)
Fixpoint binary_search_loop (fuel : nat) (nu : list F) (nu_insert : F)
  (imin imax : Z) : option Z :=
  if imax - imin >? 2 then
    match fuel with
    | O => None
    | S fuel' =>
        let imid := Z.quot (imin + imax) 2 in
        if get f0 nu imid <. nu_insert
        then binary_search_loop fuel' nu nu_insert imin (imid + 1)
        else binary_search_loop fuel' nu nu_insert imid imax
    end
  else Some (imin + 1).

(** The interval shrinks in every iteration, so its width is fuel enough
    (see [binary_search_returns]). *)
Definition binary_search (nu : list F) (nu_insert : F) (imin imax : Z)
  : option Z :=
  binary_search_loop (Z.to_nat (imax - imin)) nu nu_insert imin imax.

(** *** [macro_atom] *)

(** The inner [while True] loop: accumulate the probabilities of the block
    from slot [i] on until the sum exceeds [event_random]; the result is
    the slot [i] at the [break]. *)
Fixpoint macro_atom_block (fuel : nat) (p_transition : Ptr F)
  (p_transition_nd cur_zone_id : Z) (event_random p : F) (i : Z) : Res Z :=
  match fuel with
  | O => OutOfFuel
  | S fuel' =>
      x <- load f0 p_transition (cur_zone_id * p_transition_nd + i) ;;
      let p := p +. x in
      if p >. event_random then Ok i
      else macro_atom_block fuel' p_transition p_transition_nd cur_zone_id
             event_random p (i + 1)
  end.

(** The outer [while True] loop.  The result is the returned line id and
    the generator state after the draws. *)
Fixpoint macro_atom (fuel : nat) (activate_level : Z)
  (p_transition : Ptr F) (p_transition_nd : Z)
  (type_transition target_level_id target_line_id unroll_reference : Ptr Z)
  (cur_zone_id : Z) (mt_state : rk_state) : Res (Z * rk_state) :=
  match fuel with
  | O => OutOfFuel
  | S fuel' =>
      let '(event_random, mt_state) := rk_double mt_state in
      i <- load 0 unroll_reference activate_level ;;
      i <- macro_atom_block fuel p_transition p_transition_nd cur_zone_id
             event_random f0 i ;;
      emit <- load 0 type_transition i ;;
      activate_level <- load 0 target_level_id i ;;
      if emit =? -1 then
        line <- load 0 target_line_id i ;;
        Ok (line, mt_state)
      else
        macro_atom fuel' activate_level p_transition p_transition_nd
          type_transition target_level_id target_line_id unroll_reference
          cur_zone_id mt_state
  end.

(** *** [move_packet] *)

(** [move_packet] writes through [r], [mu], [js] and [nubars]; the result
    carries the returned Doppler factor, the four objects after the call
    and the lines printed. *)
Record Moved : Type := mkMoved {
  mv_doppler : F;
  mv_r : F;
  mv_mu : F;
  mv_js : list F;
  mv_nubars : list F;
  mv_out : list (list (Val F))
}.

Definition move_packet (r mu nu energy distance : F) (js nubars : list F)
  (inverse_t_exp : F) (cur_zone_id : Z) : Moved :=
  let doppler_factor := f1 -. (mu *. r *. inverse_t_exp *. inverse_c) in
  if distance <=. f0 then
    mkMoved doppler_factor r mu js nubars []
  else
    let comov_energy := energy *. doppler_factor in
    let comov_nu := nu *. doppler_factor in
    let js := set js cur_zone_id
                (get f0 js cur_zone_id +. comov_energy *. distance) in
    let nubars := set nubars cur_zone_id
                    (get f0 nubars cur_zone_id
                     +. comov_energy *. distance *. comov_nu) in
    let new_r := sqrt (sqr r +. sqr distance +. f2 *. r *. distance *. mu) in
    let mu' := (mu *. r +. distance) /. new_r in
    let out :=
      if mu' ==. f0 then
        [ [VS "-------- move packet: mu turned 0.0"%string];
          [VF distance; VF new_r; VF r; VF new_r; VI cur_zone_id];
          [VF (distance /. new_r)] ]
      else [] in
    mkMoved doppler_factor new_r mu' js nubars out.

(** *** The four distances *)

Definition compute_distance2outer (r mu r_outer : F) : F :=
  sqrt (sqr r_outer +. ((sqr mu -. f1) *. sqr r)) -. (r *. mu).

Definition compute_distance2inner (r mu r_inner : F) : F :=
  let check := sqr r_inner +. (sqr r *. (sqr mu -. f1)) in
  if check <. f0 then miss_distance
  else if mu <. f0 then (-. r) *. mu -. sqrt check
  else miss_distance.

(** The warning block printed when the comoving frequency lies below the
    line. *)
Definition line_warning (comov_nu nu_line last_line next_line r mu nu
  doppler_factor : F) (cur_zone_id : Z) : list (list (Val F)) :=
  [ [VS "WARNING comoving nu less than nu_line shouldn't happen:"%string];
    [VS "comov_nu = "%string; VF comov_nu];
    [VS "nu_line"%string; VF nu_line];
    [VS "(comov_nu - nu_line) nu_lines"%string;
     VF ((comov_nu -. nu_line) /. nu_line)];
    [VS "last_line"%string; VF last_line];
    [VS "next_line"%string; VF next_line];
    [VS "r"%string; VF r];
    [VS "mu"%string; VF mu];
    [VS "nu"%string; VF nu];
    [VS "doppler_factor"%string; VF doppler_factor];
    [VS "cur_zone_id"%string; VI cur_zone_id] ].

(** The result is the returned distance and the lines printed. *)
Definition compute_distance2line (r mu nu nu_line t_exp inverse_t_exp
  last_line next_line : F) (cur_zone_id : Z) : F * list (list (Val F)) :=
  let doppler_factor := f1 -. (mu *. r *. inverse_t_exp *. inverse_c) in
  let comov_nu := nu *. doppler_factor in
  let out :=
    if comov_nu <. nu_line then
      line_warning comov_nu nu_line last_line next_line r mu nu
        doppler_factor cur_zone_id
    else [] in
  (((comov_nu -. nu_line) /. nu) *. c *. t_exp, out).

Definition compute_distance2electron (r mu tau_event inverse_ne : F) : F :=
  tau_event *. inverse_ne *. inverse_sigma_thomson.

Definition get_r_sobolev (r mu d_line : F) : F :=
  sqrt (sqr r +. sqr d_line +. f2 *. r *. d_line *. mu).

(** *** The model object and [StorageModel] *)

(** A two-dimensional numpy array: its shape and its cells in the order
    they lie behind the [.data] pointer. *)
Record Array2 : Type := mkArray2 {
  shape0 : Z;
  shape1 : Z;
  data : list F
}.

(** The attributes of the Python object [model] that [StorageModel.__init__]
    reads, named by their access paths. *)
Record Model : Type := mkModel {
  packet_src_packet_nus : list F;
  packet_src_packet_mus : list F;
  packet_src_packet_energies : list F;
  model_no_of_shells : Z;
  model_r_inner : list F;
  model_r_outer : list F;
  model_v_inner : list F;
  model_time_explosion : F;
  model_electron_density : list F;
  model_line_list_nu : list F;
  model_tau_sobolevs : Array2;
  model_line_interaction_id : Z;
  model_transition_probabilities : Array2;
  atom_data_lines_upper2macro_reference_idx : list Z;
  (* atom_data.macro_atom_references['block_references'] *)
  macro_atom_references_block_references : list Z;
  (* atom_data.macro_atom_data['destination_level_idx'] *)
  macro_atom_data_destination_level_idx : list Z;
  (* atom_data.macro_atom_data['lines_idx'] *)
  macro_atom_data_lines_idx : list Z;
  (** Modelled from the spec: the column of the macro-atom data that holds
      the type code of every transition slot (positive for internal up, 0
      for internal down, -1 for emission).  The atomic data class is not
      part of the source, and [StorageModel.__init__] never reads this
      column. *)
  macro_atom_data_transition_type : list Z
}.

(** The C attributes of [StorageModel].  The numpy objects ([..._a]) and the
    pointers to their cells are one list each; the pointers of the macro
    atom, assigned only for [line_interaction_id >= 1], are [Ptr]s. *)
Record StorageModel : Type := mkStorageModel {
  packet_nus : list F;
  packet_mus : list F;
  packet_energies : list F;
  no_of_packets : Z;
  no_of_shells : Z;
  r_inner : list F;
  r_outer : list F;
  v_inner : list F;
  time_explosion : F;
  inverse_time_explosion : F;
  electron_density : list F;
  inverse_electron_density : list F;
  line_list_nu : list F;
  line_lists_tau_sobolevs : list F;
  line_lists_tau_sobolevs_nd : Z;
  no_of_lines : Z;
  line_interaction_id : Z;
  transition_probabilities : Ptr F;
  transition_probabilities_nd : Z;
  line2macro_level_upper : Ptr Z;
  macro_block_references : Ptr Z;
  transition_type : Ptr Z;
  destination_level_id : Ptr Z;
  transition_line_id : Ptr Z;
  js : list F;
  nubars : list F
}.

Definition zlength {A : Type} (a : list A) : Z := Z.of_nat (List.length a).

Definition zeros (n : Z) : list F := repeat f0 (Z.to_nat n).

(** [StorageModel.__init__].  In the branch [line_interaction_id >= 1] the
    source assigns [self.destination_level_id] twice, the second time from
    [transition_line_id_a], and never assigns [self.transition_line_id];
    [self.transition_type] is read from the same column as
    [self.macro_block_references]. *)
Definition StorageModel_init (model : Model) : StorageModel :=
  let macro := model_line_interaction_id model >=? 1 in
  {| packet_nus := packet_src_packet_nus model;
     packet_mus := packet_src_packet_mus model;
     packet_energies := packet_src_packet_energies model;
     no_of_packets := zlength (packet_src_packet_nus model);
     no_of_shells := model_no_of_shells model;
     r_inner := model_r_inner model;
     r_outer := model_r_outer model;
     v_inner := model_v_inner model;
     time_explosion := model_time_explosion model;
     inverse_time_explosion := f1 /. model_time_explosion model;
     electron_density := model_electron_density model;
     inverse_electron_density :=
       map (fun ne => f1 /. ne) (model_electron_density model);
     line_list_nu := model_line_list_nu model;
     line_lists_tau_sobolevs := data (model_tau_sobolevs model);
     line_lists_tau_sobolevs_nd := shape0 (model_tau_sobolevs model);
     no_of_lines := zlength (model_line_list_nu model);
     line_interaction_id := model_line_interaction_id model;
     transition_probabilities :=
       if macro then Some (data (model_transition_probabilities model))
       else None;
     transition_probabilities_nd :=
       if macro then shape0 (model_transition_probabilities model) else 0;
     line2macro_level_upper :=
       if macro then Some (atom_data_lines_upper2macro_reference_idx model)
       else None;
     macro_block_references :=
       if macro then Some (macro_atom_references_block_references model)
       else None;
     transition_type :=
       if macro then Some (macro_atom_references_block_references model)
       else None;
     destination_level_id :=
       if macro then Some (macro_atom_data_lines_idx model) else None;
     transition_line_id := None;
     js := zeros (model_no_of_shells model);
     nubars := zeros (model_no_of_shells model) |}.

(** *** The state of [montecarlo_one_packet] *)

(** The ten variables of the driver that the event loop receives by
    pointer. *)
Record Packet : Type := mkPacket {
  current_nu : F;
  current_energy : F;
  current_mu : F;
  current_shell_id : Z;
  current_r : F;
  comov_current_nu : F;
  current_line_id : Z;
  last_line : Z;
  close_line : Z;
  recently_crossed_boundary : Z
}.

(** The locals of [montecarlo_one_packet] whose value can survive from one
    iteration of the main loop to the next.  Every other local is assigned
    in an iteration before it is read. *)
Record Locals : Type := mkLocals {
  d_inner : F;
  d_outer : F;
  d_line : F;
  d_electron : F;
  tau_event : F;
  nu_line : F;
  emission_line_id : Z
}.

(** What the loop changes outside its own variables: the two estimator
    arrays of the storage, the module-level generator state and the
    standard output. *)
Record World : Type := mkWorld {
  w_js : list F;
  w_nubars : list F;
  mt_state : rk_state;
  stdout : list (list (Val F))
}.

Record State : Type := mkState {
  pkt : Packet;
  loc : Locals;
  world : World
}.

Inductive Step : Type :=
| Continue (st : State)
| Break (reabsorbed : Z) (st : State).

(** The four handlers of the main loop. *)
Inductive Event : Type := OUTER | INNER | ELECTRON | LINE.

(** *** One iteration of the main loop *)

(** Lines 535-577: the line frequency and the candidate distances. *)
Definition candidate_distances (storage : StorageModel) (st : State) : State :=
  let p := pkt st in
  let l := loc st in
  let w := world st in
  let nu_line :=
    if last_line p =? 0 then get f0 (line_list_nu storage) (current_line_id p)
    else nu_line l in
  if close_line p =? 1 then
    mkState
      (mkPacket (current_nu p) (current_energy p) (current_mu p)
         (current_shell_id p) (current_r p) (comov_current_nu p)
         (current_line_id p) (last_line p) 0 (recently_crossed_boundary p))
      (mkLocals (d_inner l) (d_outer l) f0 (d_electron l) (tau_event l)
         nu_line (emission_line_id l))
      w
  else
    let d_inner :=
      if recently_crossed_boundary p =? 1 then miss_distance
      else compute_distance2inner (current_r p) (current_mu p)
             (get f0 (r_inner storage) (current_shell_id p)) in
    let d_outer :=
      compute_distance2outer (current_r p) (current_mu p)
        (get f0 (r_outer storage) (current_shell_id p)) in
    let '(d_line, out) :=
      if last_line p =? 1 then (miss_distance, [])
      else compute_distance2line (current_r p) (current_mu p) (current_nu p)
             nu_line (time_explosion storage) (inverse_time_explosion storage)
             (get f0 (line_list_nu storage) (current_line_id p - 1))
             (get f0 (line_list_nu storage) (current_line_id p + 1))
             (current_shell_id p) in
    let d_electron :=
      compute_distance2electron (current_r p) (current_mu p) (tau_event l)
        (get f0 (inverse_electron_density storage) (current_shell_id p)) in
    mkState p
      (mkLocals d_inner d_outer d_line d_electron (tau_event l) nu_line
         (emission_line_id l))
      (mkWorld (w_js w) (w_nubars w) (mt_state w) (stdout w ++ out)).

(** The [if] / [elif] chain of lines 612, 641, 664 and 710: the handler that
    runs, if any. *)
Definition select_event (d_outer d_inner d_electron d_line : F)
  : option Event :=
  if (d_outer <. d_inner) && (d_outer <. d_electron) && (d_outer <. d_line)
  then Some OUTER
  else if (d_inner <. d_outer) && (d_inner <. d_electron)
          && (d_inner <. d_line)
  then Some INNER
  else if (d_electron <. d_outer) && (d_electron <. d_inner)
          && (d_electron <. d_line)
  then Some ELECTRON
  else if (d_line <. d_outer) && (d_line <. d_inner)
          && (d_line <. d_electron)
  then Some LINE
  else None.

(** Lines 612-635. *)
Definition propagate_outwards (storage : StorageModel) (st : State) : Step :=
  let p := pkt st in
  let l := loc st in
  let w := world st in
  let m := move_packet (current_r p) (current_mu p) (current_nu p)
             (current_energy p) (d_outer l) (w_js w) (w_nubars w)
             (inverse_time_explosion storage) (current_shell_id p) in
  let w' := mkWorld (mv_js m) (mv_nubars m) (mt_state w)
              (stdout w ++ mv_out m) in
  if current_shell_id p <? no_of_shells storage - 1 then
    Continue
      (mkState
         (mkPacket (current_nu p) (current_energy p) (mv_mu m)
            (current_shell_id p + 1) (mv_r m) (comov_current_nu p)
            (current_line_id p) (last_line p) (close_line p) 1)
         l w')
  else
    Break 0
      (mkState
         (mkPacket (current_nu p) (current_energy p) (mv_mu m)
            (current_shell_id p) (mv_r m) (comov_current_nu p)
            (current_line_id p) (last_line p) (close_line p)
            (recently_crossed_boundary p))
         l w').

(** Lines 641-657. *)
Definition propagate_inwards (storage : StorageModel) (st : State) : Step :=
  let p := pkt st in
  let l := loc st in
  let w := world st in
  let m := move_packet (current_r p) (current_mu p) (current_nu p)
             (current_energy p) (d_inner l) (w_js w) (w_nubars w)
             (inverse_time_explosion storage) (current_shell_id p) in
  let w' := mkWorld (mv_js m) (mv_nubars m) (mt_state w)
              (stdout w ++ mv_out m) in
  if current_shell_id p >? 0 then
    Continue
      (mkState
         (mkPacket (current_nu p) (current_energy p) (mv_mu m)
            (current_shell_id p - 1) (mv_r m) (comov_current_nu p)
            (current_line_id p) (last_line p) (close_line p) (-1))
         l w')
  else
    Break 1
      (mkState
         (mkPacket (current_nu p) (current_energy p) (mv_mu m)
            (current_shell_id p) (mv_r m) (comov_current_nu p)
            (current_line_id p) (last_line p) (close_line p)
            (recently_crossed_boundary p))
         l w').

(** Lines 664-706. *)
Definition electron_scatter (storage : StorageModel) (st : State) : State :=
  let p := pkt st in
  let l := loc st in
  let w := world st in
  let m := move_packet (current_r p) (current_mu p) (current_nu p)
             (current_energy p) (d_electron l) (w_js w) (w_nubars w)
             (inverse_time_explosion storage) (current_shell_id p) in
  let doppler_factor := mv_doppler m in
  let comov_nu := current_nu p *. doppler_factor in
  let comov_energy := current_energy p *. doppler_factor in
  let '(u1, rng1) := rk_double (mt_state w) in
  let current_mu' := f2 *. u1 -. f1 in
  let inverse_doppler_factor :=
    f1 /. (f1 -. (current_mu' *. mv_r m *. inverse_time_explosion storage
                  *. inverse_c)) in
  let current_nu' := comov_nu *. inverse_doppler_factor in
  let current_energy' := comov_energy *. inverse_doppler_factor in
  let '(u2, rng2) := rk_double rng1 in
  let tau_event' := -. log u2 in
  mkState
    (mkPacket current_nu' current_energy' current_mu' (current_shell_id p)
       (mv_r m) (comov_current_nu p) (current_line_id p) (last_line p)
       (close_line p) 0)
    (mkLocals (d_inner l) (d_outer l) (d_line l) (d_electron l) tau_event'
       (nu_line l) (emission_line_id l))
    (mkWorld (mv_js m) (mv_nubars m) rng2 (stdout w ++ mv_out m)).

(** Lines 810-812: the close-line check that ends the line handler.  The
    [abs] of line 811 is [int abs(int)] on the truncated difference (see
    [abs_binary64]): for a positive [nu_line] a difference of less than 1
    raises [close_line], and, at the x86-64 conversion, so does a
    difference that does not fit an [int]. *)
Definition close_line_check (storage : StorageModel) (current_line_id last_line
  close_line : Z) (nu_line : F) : Z :=
  if last_line =? 0 then
    if abs (get f0 (line_list_nu storage) current_line_id -. nu_line)
       /. nu_line <. lit_1em7
    then 1 else close_line
  else close_line.

(** Lines 710-812.  [mfuel] is the fuel of the macro atom. *)
Definition line_scatter (mfuel : nat) (storage : StorageModel) (st : State)
  : Res State :=
  let p := pkt st in
  let l := loc st in
  let w := world st in
  let tau_line :=
    get f0 (line_lists_tau_sobolevs storage)
      (current_shell_id p * line_lists_tau_sobolevs_nd storage
       + current_line_id p) in
  let tau_electron :=
    sigma_thomson *. get f0 (electron_density storage) (current_shell_id p)
    *. d_line l in
  let tau_combined := tau_line +. tau_electron in
  (* advancing to the next line, and the check for the last line *)
  let advanced := current_line_id p + 1 in
  let current_line_id1 :=
    if advanced >=? no_of_lines storage then no_of_lines storage
    else advanced in
  let last_line1 :=
    if advanced >=? no_of_lines storage then 1 else last_line p in
  if tau_event l <. tau_combined then
    let m := move_packet (current_r p) (current_mu p) (current_nu p)
               (current_energy p) (d_line l) (w_js w) (w_nubars w)
               (inverse_time_explosion storage) (current_shell_id p) in
    let old_doppler_factor := mv_doppler m in
    let comov_current_energy := current_energy p *. old_doppler_factor in
    let '(u1, rng1) := rk_double (mt_state w) in
    let current_mu' := f2 *. u1 -. f1 in
    let inverse_doppler_factor :=
      f1 /. (f1 -. (current_mu' *. mv_r m *. inverse_time_explosion storage
                    *. inverse_c)) in
    '(emission_line_id', rng2) <-
      (if line_interaction_id storage =? 0 then Ok (current_line_id1, rng1)
       else if line_interaction_id storage >=? 1 then
         activate_level_id <-
           load 0 (line2macro_level_upper storage) current_line_id1 ;;
         macro_atom mfuel activate_level_id
           (transition_probabilities storage)
           (transition_probabilities_nd storage)
           (transition_type storage)
           (destination_level_id storage)
           (transition_line_id storage)
           (macro_block_references storage)
           (current_shell_id p) rng1
       else Ok (emission_line_id l, rng1)) ;;
    let current_nu' :=
      get f0 (line_list_nu storage) emission_line_id'
      *. inverse_doppler_factor in
    let nu_line' := get f0 (line_list_nu storage) emission_line_id' in
    let current_line_id2 := emission_line_id' + 1 in
    let current_energy' := comov_current_energy *. inverse_doppler_factor in
    let '(u2, rng3) := rk_double rng2 in
    let tau_event' := -. log u2 in
    Ok (mkState
          (mkPacket current_nu' current_energy' current_mu'
             (current_shell_id p) (mv_r m) (comov_current_nu p)
             current_line_id2 last_line1
             (close_line_check storage current_line_id2 last_line1
                (close_line p) nu_line')
             0)
          (mkLocals (d_inner l) (d_outer l) (d_line l) (d_electron l)
             tau_event' nu_line' emission_line_id')
          (mkWorld (mv_js m) (mv_nubars m) rng3 (stdout w ++ mv_out m)))
  else
    let tau_event' := tau_event l -. tau_line in
    Ok (mkState
          (mkPacket (current_nu p) (current_energy p) (current_mu p)
             (current_shell_id p) (current_r p) (comov_current_nu p)
             current_line_id1 last_line1
             (close_line_check storage current_line_id1 last_line1
                (close_line p) (nu_line l))
             (recently_crossed_boundary p))
          (mkLocals (d_inner l) (d_outer l) (d_line l) (d_electron l)
             tau_event' (nu_line l) (emission_line_id l))
          w).

(** The handler of an event. *)
Definition handle (mfuel : nat) (storage : StorageModel) (e : Event)
  (st : State) : Res Step :=
  match e with
  | OUTER => Ok (propagate_outwards storage st)
  | INNER => Ok (propagate_inwards storage st)
  | ELECTRON => Ok (Continue (electron_scatter storage st))
  | LINE => st' <- line_scatter mfuel storage st ;; Ok (Continue st')
  end.

(** The event of an iteration: the distances are computed, then the chain of
    comparisons selects a handler or none. *)
Definition event_of (storage : StorageModel) (st : State) : option Event :=
  let l := loc (candidate_distances storage st) in
  select_event (d_outer l) (d_inner l) (d_electron l) (d_line l).

(** The body of [while True]: when no comparison of the chain holds, no
    handler runs and the loop goes on to its next iteration. *)
Definition iteration (mfuel : nat) (storage : StorageModel) (st : State)
  : Res Step :=
  let st1 := candidate_distances storage st in
  match event_of storage st with
  | Some e => handle mfuel storage e st1
  | None => Ok (Continue st1)
  end.

Fixpoint main_loop (fuel mfuel : nat) (storage : StorageModel) (st : State)
  : Res (Z * State) :=
  match fuel with
  | O => OutOfFuel
  | S fuel' =>
      s <- iteration mfuel storage st ;;
      match s with
      | Continue st' => main_loop fuel' mfuel storage st'
      | Break reabsorbed st' => Ok (reabsorbed, st')
      end
  end.

(** The state in which the main loop is entered: the locals are zero, but
    for [tau_event], drawn before the loop. *)
Definition initial_state (p : Packet) (w : World) : State :=
  let '(u, rng) := rk_double (mt_state w) in
  mkState p
    (mkLocals f0 f0 f0 f0 (-. log u) f0 0)
    (mkWorld (w_js w) (w_nubars w) rng (stdout w)).

(** [montecarlo_one_packet]: the returned flag [reabsorbed] and the state
    left behind the pointers. *)
Definition montecarlo_one_packet (fuel mfuel : nat) (storage : StorageModel)
  (p : Packet) (w : World) (virtual_particle_flag : Z) : Res (Z * State) :=
  main_loop fuel mfuel storage (initial_state p w).

(** *** [montecarlo_radial1d] *)

(** The variables of the driver that live across packets. *)
Record Driver : Type := mkDriver {
  output_nus : list F;
  output_energies : list F;
  driver_close_line : Z;
  driver_world : World
}.

(** Lines 446-473: the packet handed to the event loop. *)
Definition start_packet (storage : StorageModel) (i : Z) (close_line : Z)
  : Res Packet :=
  let current_nu := get f0 (packet_nus storage) i in
  let current_energy := get f0 (packet_energies storage) i in
  let current_mu := get f0 (packet_mus storage) i in
  let current_shell_id := 0 in
  let current_r := get f0 (r_inner storage) 0 in
  let comov_current_nu :=
    current_nu
    *. (f1 -. (current_mu *. current_r *. inverse_time_explosion storage
               *. inverse_c)) in
  match binary_search (line_list_nu storage) comov_current_nu 0
          (no_of_lines storage) with
  | None => OutOfFuel
  | Some current_line_id =>
      let last_line :=
        if current_line_id =? no_of_lines storage then 1 else 0 in
      Ok (mkPacket current_nu current_energy current_mu current_shell_id
            current_r comov_current_nu current_line_id last_line close_line 1)
  end.

(** Lines 478-484: what the driver writes for a packet. *)
Definition record_outcome (i reabsorbed : Z) (current_nu current_energy : F)
  (output_nus output_energies : list F) : list F * list F :=
  if reabsorbed =? 1 then
    (set output_nus i (-. current_nu), set output_energies i (-. current_energy))
  else if reabsorbed =? 0 then
    (set output_nus i current_nu, set output_energies i current_energy)
  else (output_nus, output_energies).

(** Lines 439-441: the progress line, printed for every fifth of the
    packets. *)
Definition announce (storage : StorageModel) (i : Z) (w : World) : World :=
  mkWorld (w_js w) (w_nubars w) (mt_state w)
    (stdout w ++
     if Z.rem i (Z.quot (no_of_packets storage) 5) =? 0 then
       [ [VS "At packet %d of %d"%string; VI i; VI (no_of_packets storage)] ]
     else []).

(** The body of [for i in range(storage.no_of_packets)].  With C division
    switched on, [i % (no_of_packets / 5)] is undefined for fewer than five
    packets. *)
Definition packet_body (fuel mfuel : nat) (storage : StorageModel) (i : Z)
  (dr : Driver) : Res Driver :=
  if Z.quot (no_of_packets storage) 5 =? 0 then Fault
  else
    let w := announce storage i (driver_world dr) in
    p <- start_packet storage i (driver_close_line dr) ;;
    '(reabsorbed, st) <- montecarlo_one_packet fuel mfuel storage p w 0 ;;
    let '(nus, energies) :=
      record_outcome i reabsorbed (current_nu (pkt st))
        (current_energy (pkt st)) (output_nus dr) (output_energies dr) in
    Ok (mkDriver nus energies (close_line (pkt st)) (world st)).

Fixpoint packets_loop (fuel mfuel : nat) (storage : StorageModel)
  (range : list nat) (dr : Driver) : Res Driver :=
  match range with
  | [] => Ok dr
  | i :: rest =>
      dr' <- packet_body fuel mfuel storage (Z.of_nat i) dr ;;
      packets_loop fuel mfuel storage rest dr'
  end.

(** [montecarlo_radial1d]: the four returned arrays, with the generator
    state and the output left behind.  [seed] is the state of the module's
    generator at the call. *)
Definition montecarlo_radial1d (fuel mfuel : nat) (model : Model)
  (seed : rk_state) : Res (list F * list F * list F * list F * World) :=
  let storage := StorageModel_init model in
  let dr := mkDriver (zeros (no_of_packets storage))
              (zeros (no_of_packets storage)) 0
              (mkWorld (js storage) (nubars storage) seed []) in
  dr' <- packets_loop fuel mfuel storage
           (seq 0 (Z.to_nat (no_of_packets storage))) dr ;;
  Ok (output_nus dr', output_energies dr', w_js (driver_world dr'),
      w_nubars (driver_world dr'), driver_world dr').

End Kernel.

(** ** The two instances *)

(** *** IEEE binary64 *)

(** The source declares [float_type_t abs(float_type_t)] in its
    [cdef extern from "math.h"] block, but math.h declares no [abs]: the
    only [abs] the C compiler sees is [int abs(int)] of stdlib.h.  The call
    of line 811 therefore converts its argument to [int], truncating
    towards zero, takes the absolute value of that [int], and converts the
    result back to [double].

    C leaves the conversion undefined for a value outside the range of
    [int] (a NaN and the infinities included), and [abs] undefined at
    [INT_MIN].  There the embedding takes what the code compiled for x86-64
    computes: the conversion instruction returns [INT_MIN] for every such
    value, and the negation of [INT_MIN] is [INT_MIN] again. *)
Definition int_min : Z := - 2 ^ 31.
Definition int_max : Z := 2 ^ 31 - 1.

(** An integer as an [int]. *)
Definition int_of_Z (t : Z) : Z :=
  if (int_min <=? t) && (t <=? int_max) then t else int_min.

(** [int abs(int)]. *)
Definition c_abs (n : Z) : Z := if n =? int_min then int_min else Z.abs n.

(** The conversion of a [double] to [int]. *)
Definition int_of_double (x : float) : Z :=
  match FloatOps.Prim2SF x with
  | SpecFloat.S754_zero _ => 0
  | SpecFloat.S754_finite s m e =>
      let a := if 0 <=? e then Z.pos m * 2 ^ e else Z.pos m / 2 ^ (- e) in
      int_of_Z (if s then - a else a)
  | _ => int_min
  end.

(** The conversion of an [int] to [double], which is exact. *)
Definition double_of_int (n : Z) : float :=
  if n <? 0 then PrimFloat.opp (PrimFloat.of_uint63 (Uint63.of_Z (- n)))
  else PrimFloat.of_uint63 (Uint63.of_Z n).

Definition abs_binary64 (x : float) : float :=
  double_of_int (c_abs (int_of_double x)).

(** Rocq's primitive floats are binary64 with round-to-nearest-even, the
    arithmetic of a C [double]. *)
#[export] Instance binary64 : Float64 float := {|
  fadd := PrimFloat.add;
  fsub := PrimFloat.sub;
  fmul := PrimFloat.mul;
  fdiv := PrimFloat.div;
  fneg := PrimFloat.opp;
  flt := PrimFloat.ltb;
  fle := PrimFloat.leb;
  feq := PrimFloat.eqb;
  sqrt := PrimFloat.sqrt;
  abs := abs_binary64;
  f0 := 0%float;
  f1 := 1%float;
  f2 := 2%float;
  lit_1e99 := 1e99%float;
  lit_6_652486em25 := 6.652486e-25%float;
  lit_1em7 := 1e-7%float;
  cgs_c := 29979245800%float
|}.

(** The logarithm of the C library is a parameter. *)
Definition libm (log : float -> float) : MathH float := {|
  log := log
|}.

(** *** Exact real arithmetic *)

Definition Rltb (x y : R) : bool := if Rlt_dec x y then true else false.
Definition Rleb (x y : R) : bool := if Rle_dec x y then true else false.
Definition Reqb (x y : R) : bool := if Req_dec_T x y then true else false.

(** The same [abs] on an exact difference: the conversions to [int] and
    back stay what they are in C. *)
Definition int_of_real (x : R) : Z :=
  int_of_Z (if Rle_dec 0 x then Int_part x else - Int_part (- x)).

Definition abs_exact (x : R) : R := IZR (c_abs (int_of_real x)).

#[export] Instance exact : Float64 R := {|
  fadd := Rplus;
  fsub := Rminus;
  fmul := Rmult;
  fdiv := Rdiv;
  fneg := Ropp;
  flt := Rltb;
  fle := Rleb;
  feq := Reqb;
  sqrt := R_sqrt.sqrt;
  abs := abs_exact;
  f0 := 0%R;
  f1 := 1%R;
  f2 := 2%R;
  lit_1e99 := 1e99%R;
  lit_6_652486em25 := 6.652486e-25%R;
  lit_1em7 := 1e-7%R;
  cgs_c := 29979245800%R
|}.

#[export] Instance exact_math : MathH R := {|
  log := ln
|}.

(** *** A generator that replays recorded draws *)

(** The state is the list of the draws still to come; [d] is drawn once the
    list is used up. *)
Definition replay {F : Type} (d : F) : RandomKit F := {|
  rk_state := list F;
  rk_double := fun s =>
    match s with
    | u :: rest => (u, rest)
    | [] => (d, [])
    end
|}.

(** ** What the specification says of the line search *)

Section LineSearch.

Context {F : Type} {F64 : Float64 F}.

(** The table is strictly decreasing: [nu[i] > nu[i+1]] for every [i]. *)
Fixpoint strictly_decreasing (nu : list F) : bool :=
  match nu with
  | x :: ((y :: _) as rest) => (x >. y) && strictly_decreasing rest
  | _ => true
  end.

(** The line search in the words of the specification: the smallest index
    [i] with [nu[i] <= nu_insert], and the length of the table when there
    is none, found by a scan from the blue end. *)
Fixpoint LineSearch (nu : list F) (nu_insert : F) : Z :=
  match nu with
  | [] => 0
  | x :: rest => if x <=. nu_insert then 0 else 1 + LineSearch rest nu_insert
  end.

End LineSearch.

(** ** Three snapshots *)

Section Snapshots.

Context {F : Type} {F64 : Float64 F}.

Definition f4 : F := f2 *. f2.
Definition f8 : F := f2 *. f2 *. f2.

(** Five equal packets of frequency 2 that start radially outwards in a
    single shell between the radii [c] and [2 c], four seconds after the
    explosion, with unit electron density and no line opacity.  In
    [line_list_nu] the third entry is [third]. *)
Definition one_shell (third : F) : Model := {|
  packet_src_packet_nus := [f2; f2; f2; f2; f2];
  packet_src_packet_mus := [f1; f1; f1; f1; f1];
  packet_src_packet_energies := [f1; f1; f1; f1; f1];
  model_no_of_shells := 1;
  model_r_inner := [cgs_c];
  model_r_outer := [f2 *. cgs_c];
  model_v_inner := [cgs_c /. f4];
  model_time_explosion := f4;
  model_electron_density := [f1];
  model_line_list_nu := [f8; f4; third; f1 /. f4];
  model_tau_sobolevs := mkArray2 4 1 [f0; f0; f0; f0];
  model_line_interaction_id := 0;
  model_transition_probabilities := mkArray2 0 0 [];
  atom_data_lines_upper2macro_reference_idx := [];
  macro_atom_references_block_references := [];
  macro_atom_data_destination_level_idx := [];
  macro_atom_data_lines_idx := [];
  macro_atom_data_transition_type := []
|}.

(** The next line at frequency 1: the packet reaches it exactly where it
    reaches the outer boundary. *)
Definition tied : Model := one_shell f1.

(** The next line at frequency 1/2: the outer boundary comes first. *)
Definition free : Model := one_shell (f1 /. f2).

(** The two-level atom in MACRO mode: line 0 is absorbed into the one macro
    level, whose block holds one transition slot, an emission of line 1
    with probability one. *)
Definition two_level : Model := {|
  packet_src_packet_nus := [f2; f2; f2; f2; f2];
  packet_src_packet_mus := [f1; f1; f1; f1; f1];
  packet_src_packet_energies := [f1; f1; f1; f1; f1];
  model_no_of_shells := 1;
  model_r_inner := [cgs_c];
  model_r_outer := [f2 *. cgs_c];
  model_v_inner := [cgs_c /. f4];
  model_time_explosion := f4;
  model_electron_density := [f1];
  model_line_list_nu := [f2; f1];
  model_tau_sobolevs := mkArray2 2 1 [f1; f1];
  model_line_interaction_id := 2;
  model_transition_probabilities := mkArray2 1 1 [f1];
  atom_data_lines_upper2macro_reference_idx := [0; 0];
  macro_atom_references_block_references := [0; 1];
  macro_atom_data_destination_level_idx := [0];
  macro_atom_data_lines_idx := [1];
  macro_atom_data_transition_type := [-1]
|}.

(** The comoving frequency of the packets of [one_shell] at the start, as
    the driver computes it, and the packet the driver hands to the event
    loop (see [start_packet_one_shell]). *)
Definition one_shell_comov : F :=
  f2 *. (f1 -. (f1 *. cgs_c *. (f1 /. f4) *. inverse_c)).

Definition one_shell_packet : Packet :=
  mkPacket f2 f1 f1 0 cgs_c one_shell_comov 2 0 0 1.

End Snapshots.

(** A generator whose every draw is 1/2, at either arithmetic. *)
#[export] Instance coin : RandomKit R := replay (1 / 2)%R.
#[export] Instance coin64 : RandomKit float := replay 0.5%float.

(** Unfolds the operations of the interface at the real numbers. *)
Ltac real_ops :=
  cbv [fadd fsub fmul fdiv fneg flt fle feq f0 f1 f2 f4 f8 lit_1e99
       lit_6_652486em25 lit_1em7 cgs_c exact log sqrt abs exact_math sqr c
       inverse_c miss_distance sigma_thomson inverse_sigma_thomson] in * .

(** ** Further notions and snapshots *)

Section Notions.

Context {F : Type} {F64 : Float64 F} {RK : RandomKit F}.

(** The value of [p] in the inner loop of the macro atom after the
    probabilities of [n] slots, from slot [i] on, have been added to it, in
    the order of the loop. *)
Fixpoint block_sum (p_transition : list F) (base : Z) (p : F) (i : Z)
  (n : nat) : F :=
  match n with
  | O => p
  | S n' =>
      block_sum p_transition base (p +. get f0 p_transition (base + i))
        (i + 1) n'
  end.

(** A round of the outer loop of the macro atom with the level
    [activate_level] active and the generator in [mt_state]: the number is
    drawn from [mt_state], which leaves [mt_state'], the block of the level
    starts at slot [unroll_reference[activate_level]], and [i] is the first
    slot from there on at which the probabilities accumulated in the order
    of the inner loop exceed the number drawn. *)
Definition macro_round (p_transition : list F) (p_transition_nd : Z)
  (unroll_reference : Ptr Z) (cur_zone_id activate_level : Z)
  (mt_state : rk_state) (i : Z) (mt_state' : rk_state) : Prop :=
  exists (i0 : Z) (n : nat),
    load 0 unroll_reference activate_level = Ok i0
    /\ i = i0 + Z.of_nat n
    /\ flt (fst (rk_double mt_state))
         (block_sum p_transition (cur_zone_id * p_transition_nd) f0 i0 (S n))
       = true
    /\ (forall m : nat, (m < n)%nat ->
          flt (fst (rk_double mt_state))
            (block_sum p_transition (cur_zone_id * p_transition_nd) f0 i0
               (S m))
          = false)
    /\ mt_state' = snd (rk_double mt_state).

(** The runs of the macro atom that return: a chain of rounds, each
    started at the level the round before read from [target_level_id] and
    with the generator that round left.  Every round but the last selects a
    slot whose transition type is not -1; the last selects an emission, and
    the line returned is the entry of [target_line_id] at its slot. *)
Inductive macro_run (p_transition : list F) (p_transition_nd : Z)
  (type_transition target_level_id target_line_id unroll_reference : Ptr Z)
  (cur_zone_id : Z) : Z -> rk_state -> Z -> rk_state -> Prop :=
| macro_emits (activate_level : Z) (mt_state : rk_state) (i next line : Z)
    (mt_state' : rk_state) :
    macro_round p_transition p_transition_nd unroll_reference cur_zone_id
      activate_level mt_state i mt_state' ->
    load 0 type_transition i = Ok (-1) ->
    load 0 target_level_id i = Ok next ->
    load 0 target_line_id i = Ok line ->
    macro_run p_transition p_transition_nd type_transition target_level_id
      target_line_id unroll_reference cur_zone_id activate_level mt_state
      line mt_state'
| macro_jumps (activate_level : Z) (mt_state : rk_state) (i emit next : Z)
    (mt_state1 : rk_state) (line : Z) (mt_state' : rk_state) :
    macro_round p_transition p_transition_nd unroll_reference cur_zone_id
      activate_level mt_state i mt_state1 ->
    load 0 type_transition i = Ok emit ->
    emit <> -1 ->
    load 0 target_level_id i = Ok next ->
    macro_run p_transition p_transition_nd type_transition target_level_id
      target_line_id unroll_reference cur_zone_id next mt_state1 line
      mt_state' ->
    macro_run p_transition p_transition_nd type_transition target_level_id
      target_line_id unroll_reference cur_zone_id activate_level mt_state
      line mt_state'.

(** The flags and the shell index of a packet are in their ranges: the
    shell is one of the [no_of_shells] shells, [last_line] and [close_line]
    are 0 or 1, [recently_crossed_boundary] is -1, 0 or 1. *)
Definition flags_ok (storage : @StorageModel F) (p : @Packet F) : bool :=
  (0 <=? current_shell_id p)
  && (current_shell_id p <=? no_of_shells storage - 1)
  && ((last_line p =? 0) || (last_line p =? 1))
  && ((close_line p =? 0) || (close_line p =? 1))
  && ((recently_crossed_boundary p =? -1)
      || (recently_crossed_boundary p =? 0)
      || (recently_crossed_boundary p =? 1)).

(** The state an iteration hands on, whether the loop goes on or ends. *)
Definition state_after (s : @Step F RK) : @State F RK :=
  match s with
  | Continue st => st
  | Break _ st => st
  end.

End Notions.

Section MoreSnapshots.

Context {F : Type} {F64 : Float64 F}.

(** A model cut down to its first [n] packets. *)
Definition fewer (n : nat) (model : @Model F) : @Model F := {|
  packet_src_packet_nus := firstn n (packet_src_packet_nus model);
  packet_src_packet_mus := firstn n (packet_src_packet_mus model);
  packet_src_packet_energies := firstn n (packet_src_packet_energies model);
  model_no_of_shells := model_no_of_shells model;
  model_r_inner := model_r_inner model;
  model_r_outer := model_r_outer model;
  model_v_inner := model_v_inner model;
  model_time_explosion := model_time_explosion model;
  model_electron_density := model_electron_density model;
  model_line_list_nu := model_line_list_nu model;
  model_tau_sobolevs := model_tau_sobolevs model;
  model_line_interaction_id := model_line_interaction_id model;
  model_transition_probabilities := model_transition_probabilities model;
  atom_data_lines_upper2macro_reference_idx :=
    atom_data_lines_upper2macro_reference_idx model;
  macro_atom_references_block_references :=
    macro_atom_references_block_references model;
  macro_atom_data_destination_level_idx :=
    macro_atom_data_destination_level_idx model;
  macro_atom_data_lines_idx := macro_atom_data_lines_idx model;
  macro_atom_data_transition_type := macro_atom_data_transition_type model
|}.

(** The snapshot [free] with a second shell, between the radii [2 c] and
    [4 c], around the first. *)
Definition two_shells : @Model F := {|
  packet_src_packet_nus := [f2; f2; f2; f2; f2];
  packet_src_packet_mus := [f1; f1; f1; f1; f1];
  packet_src_packet_energies := [f1; f1; f1; f1; f1];
  model_no_of_shells := 2;
  model_r_inner := [cgs_c; f2 *. cgs_c];
  model_r_outer := [f2 *. cgs_c; f4 *. cgs_c];
  model_v_inner := [cgs_c /. f4; cgs_c /. f2];
  model_time_explosion := f4;
  model_electron_density := [f1; f1];
  model_line_list_nu := [f8; f4; f1 /. f2; f1 /. f4];
  model_tau_sobolevs := mkArray2 4 2 [f0; f0; f0; f0; f0; f0; f0; f0];
  model_line_interaction_id := 0;
  model_transition_probabilities := mkArray2 0 0 [];
  atom_data_lines_upper2macro_reference_idx := [];
  macro_atom_references_block_references := [];
  macro_atom_data_destination_level_idx := [];
  macro_atom_data_lines_idx := [];
  macro_atom_data_transition_type := []
|}.

End MoreSnapshots.

(** The world before the first packet of a one-shell snapshot, and the
    packet of [one_shell] in front of its line, with the optical depth
    [tau] to its next event, the kept distances [d] and [close_line] as
    given. *)
Definition fresh_world : @World R coin := mkWorld [0%R] [0%R] [] [].

Definition at_line (tau d : R) (close_line : Z) : @State R coin :=
  mkState
    (mkPacket 2%R 1%R 1%R 0 29979245800%R (3 / 2)%R 2 0 close_line 0)
    (mkLocals d d d d tau 1%R 0)
    fresh_world.

(** A packet at rest at the centre, before an electron scattering at no
    distance. *)
Definition at_centre : @State R coin :=
  mkState
    (mkPacket 2%R 1%R 1%R 0 0%R 2%R 2 0 0 0)
    (mkLocals 0%R 0%R 0%R 0%R 1%R 1%R 0)
    fresh_world.

(** * Properties *)

Unset Implicit Arguments.

(** ** The line search *)

Section LineSearchFacts.

Context {F : Type} {F64 : Float64 F}.

Lemma half_between (imin imax : Z) :
  0 <= imin -> 2 < imax - imin ->
  Z.quot (imin + imax) 2 = (imin + imax) / 2
  /\ imin < (imin + imax) / 2 < imax - 1.
Proof.
  intros Hmin Hw. split.
  - apply Z.quot_div_nonneg; lia.
  - pose proof (Z.div_mod (imin + imax) 2 ltac:(lia)).
    pose proof (Z.mod_pos_bound (imin + imax) 2 ltac:(lia)). lia.
Qed.



(** What the loop establishes: the returned index is the middle of an
    interval of width two whose lower end, once moved, holds an entry not
    below [nu_insert], and whose upper end, once moved, lies just above an
    entry below [nu_insert]. *)
Lemma binary_search_loop_bracket (nu : list F) (nu_insert : F) (lo hi : Z) :
  forall fuel imin imax i,
    0 <= lo <= imin -> imin + 2 <= imax <= hi ->
    (imin = lo \/ (get f0 nu imin <. nu_insert) = false) ->
    (imax = hi \/ (get f0 nu (imax - 1) <. nu_insert) = true) ->
    binary_search_loop fuel nu nu_insert imin imax = Some i ->
    lo + 1 <= i <= hi - 1
    /\ (i = lo + 1 \/ (get f0 nu (i - 1) <. nu_insert) = false)
    /\ (i = hi - 1 \/ (get f0 nu i <. nu_insert) = true).
Proof.
  induction fuel as [|fuel IH]; intros imin imax i Hlo Hhi Hmin Hmax; simpl.
  - destruct (imax - imin >? 2) eqn:E; [discriminate |].
    intros [= <-]. assert (imax = imin + 2) by lia. subst imax.
    replace (imin + 1 - 1) with imin by lia.
    replace (imin + 2 - 1) with (imin + 1) in Hmax by lia.
    repeat split; try lia.
    + destruct Hmin; [left; lia | right; assumption].
    + destruct Hmax; [left; lia | right; assumption].
  - destruct (imax - imin >? 2) eqn:E.
    + destruct (half_between imin imax) as [-> Hmid]; [lia | lia |].
      destruct (get f0 nu ((imin + imax) / 2) <. nu_insert) eqn:T; intros H.
      * apply (IH imin ((imin + imax) / 2 + 1)); try assumption; try lia.
        right. replace ((imin + imax) / 2 + 1 - 1) with ((imin + imax) / 2) by lia.
        assumption.
      * apply (IH ((imin + imax) / 2) imax); try assumption; try lia.
        right. assumption.
    + intros [= <-]. assert (imax = imin + 2) by lia. subst imax.
      replace (imin + 1 - 1) with imin by lia.
      replace (imin + 2 - 1) with (imin + 1) in Hmax by lia.
      repeat split; try lia.
      * destruct Hmin; [left; lia | right; assumption].
      * destruct Hmax; [left; lia | right; assumption].
Qed.

(** On a table of at least two entries the search returns an index [i] with
    [1 <= i <= L - 1]: neither the first line nor the red end [L]. *)
Lemma binary_search_bracket (nu : list F) (nu_insert : F) (L i : Z) :
  2 <= L ->
  binary_search nu nu_insert 0 L = Some i ->
  1 <= i <= L - 1
  /\ (i = 1 \/ (get f0 nu (i - 1) <. nu_insert) = false)
  /\ (i = L - 1 \/ (get f0 nu i <. nu_insert) = true).
Proof.
  intros HL H.
  apply (binary_search_loop_bracket nu nu_insert 0 L _ 0 L i) in H;
    [| lia | lia | left; reflexivity | left; reflexivity].
  replace (0 + 1) with 1 in H by lia. exact H.
Qed.

(** On a table of at most two entries (the empty table too) the loop is not
    entered and the search returns 1. *)
Lemma binary_search_short (nu : list F) (nu_insert : F) (L : Z) :
  L <= 2 -> binary_search nu nu_insert 0 L = Some 1.
Proof.
  intros HL. unfold binary_search.
  destruct (Z.to_nat (L - 0)); simpl;
    (destruct (L - 0 >? 2) eqn:E; [lia | reflexivity]).
Qed.

End LineSearchFacts.

(** ** The kernel, at any arithmetic *)

Section KernelFacts.

Context {F : Type} {F64 : Float64 F} {M : MathH F} {RK : RandomKit F}.

(** *** The macro atom *)

(** With the table of line ids behind a NULL pointer the macro atom cannot
    return: every run faults, at the read of the emitted line at the latest,
    or never reaches an emission. *)
Lemma macro_atom_null_line_table (p_transition : Ptr F) (p_transition_nd : Z)
  (type_transition target_level_id unroll_reference : Ptr Z) (cur_zone_id : Z) :
  forall fuel activate_level mt_state,
    let run :=
      macro_atom fuel activate_level p_transition p_transition_nd
        type_transition target_level_id None unroll_reference cur_zone_id
        mt_state in
    run = Fault \/ run = OutOfFuel.
Proof.
  induction fuel as [|fuel IH]; intros activate_level mt_state;
    cbn [macro_atom].
  - right. reflexivity.
  - destruct (rk_double mt_state) as [event_random mt_state'].
    destruct (load 0 unroll_reference activate_level) as [i0| |]; cbn [bind];
      auto.
    match goal with
    | |- context [macro_atom_block ?a ?b ?c ?d ?e ?f ?g] =>
        destruct (macro_atom_block a b c d e f g) as [i| |]
    end; cbn [bind]; auto.
    destruct (load 0 type_transition i) as [emit| |]; cbn [bind]; auto.
    destruct (load 0 target_level_id i) as [level| |]; cbn [bind]; auto.
    destruct (emit =? -1); cbn [bind load]; [auto | apply IH].
Qed.

(** The function itself does return the line id of the selected slot when
    that slot is an emission and the tables are there. *)
Lemma macro_atom_emits (fuel : nat) (activate_level : Z) (p_transition : Ptr F)
  (p_transition_nd : Z) (type_transition target_level_id unroll_reference : Ptr Z)
  (target_line_id : list Z) (cur_zone_id : Z) (mt_state mt_state' : rk_state)
  (event_random : F) (i0 i level : Z) :
  rk_double mt_state = (event_random, mt_state') ->
  load 0 unroll_reference activate_level = Ok i0 ->
  macro_atom_block (S fuel) p_transition p_transition_nd cur_zone_id
    event_random f0 i0 = Ok i ->
  load 0 type_transition i = Ok (-1) ->
  load 0 target_level_id i = Ok level ->
  macro_atom (S fuel) activate_level p_transition p_transition_nd
    type_transition target_level_id (Some target_line_id) unroll_reference
    cur_zone_id mt_state
  = Ok (get 0 target_line_id i, mt_state').
Proof.
  intros Hrk Hi0 Hi Hty Hlv.
  cbn [macro_atom]. rewrite Hrk, Hi0. cbn [bind].
  rewrite Hi. cbn [bind]. rewrite Hty, Hlv. reflexivity.
Qed.

(** *** The packet mover *)

Lemma move_packet_nonpositive (r mu nu energy distance : F) (js nubars : list F)
  (inverse_t_exp : F) (cur_zone_id : Z) :
  (distance <=. f0) = true ->
  move_packet r mu nu energy distance js nubars inverse_t_exp cur_zone_id
  = mkMoved (f1 -. (mu *. r *. inverse_t_exp *. inverse_c)) r mu js nubars [].
Proof. intros H. unfold move_packet. rewrite H. reflexivity. Qed.

(** *** The main loop *)

(** An iteration in which no comparison of the chain holds runs no handler
    and goes on with the state the distance computation left. *)
Lemma iteration_no_event (mfuel : nat) (storage : StorageModel) (st : State) :
  event_of storage st = None ->
  iteration mfuel storage st = Ok (Continue (candidate_distances storage st)).
Proof. intros H. unfold iteration. rewrite H. reflexivity. Qed.

(** The loop is left only by the two [break]s. *)
Lemma iteration_break (mfuel : nat) (storage : StorageModel) (st st' : State)
  (reabsorbed : Z) :
  iteration mfuel storage st = Ok (Break reabsorbed st') ->
  (event_of storage st = Some OUTER
   /\ no_of_shells storage - 1 <= current_shell_id (pkt st)
   /\ reabsorbed = 0)
  \/ (event_of storage st = Some INNER
      /\ current_shell_id (pkt st) <= 0
      /\ reabsorbed = 1).
Proof.
  unfold iteration.
  assert (Hs : current_shell_id (pkt (candidate_distances storage st))
               = current_shell_id (pkt st)).
  { unfold candidate_distances.
    destruct (close_line (pkt st) =? 1); [reflexivity |].
    destruct (if last_line (pkt st) =? 1 then _ else _). reflexivity. }
  destruct (event_of storage st) as [[ | | | ]|]; cbn [handle].
  - unfold propagate_outwards. rewrite Hs.
    destruct (current_shell_id (pkt st) <? no_of_shells storage - 1) eqn:E;
      [discriminate |].
    intros [= <- _]. left. repeat split. lia.
  - unfold propagate_inwards. rewrite Hs.
    destruct (current_shell_id (pkt st) >? 0) eqn:E; [discriminate |].
    intros [= <- _]. right. repeat split. lia.
  - discriminate.
  - destruct (line_scatter mfuel storage _); cbn [bind]; discriminate.
  - discriminate.
Qed.

Lemma main_loop_break (mfuel : nat) (storage : StorageModel) :
  forall fuel st reabsorbed st',
    main_loop fuel mfuel storage st = Ok (reabsorbed, st') ->
    exists final,
      iteration mfuel storage final = Ok (Break reabsorbed st').
Proof.
  induction fuel as [|fuel IH]; intros st reabsorbed st'; cbn [main_loop].
  - discriminate.
  - destruct (iteration mfuel storage st) as [[next|r last]| |] eqn:E;
      cbn [bind]; try discriminate.
    + apply IH.
    + intros [= <- <-]. exists st. exact E.
Qed.

Lemma candidate_distances_again (storage : StorageModel) (st : State) :
  close_line (pkt st) <> 1 ->
  pkt (candidate_distances storage st) = pkt st
  /\ loc (candidate_distances storage (candidate_distances storage st))
     = loc (candidate_distances storage st).
Proof.
  intros Hc.
  assert (E : (close_line (pkt st) =? 1) = false) by (apply Z.eqb_neq; exact Hc).
  unfold candidate_distances at 1 3. rewrite E.
  destruct (if last_line (pkt st) =? 1 then _ else _) as [dl out] eqn:D.
  cbn [pkt]. split; [reflexivity |].
  unfold candidate_distances. cbn [pkt loc world tau_event nu_line emission_line_id].
  rewrite E.
  assert (N : (if last_line (pkt st) =? 0
               then get f0 (line_list_nu storage) (current_line_id (pkt st))
               else if last_line (pkt st) =? 0
                    then get f0 (line_list_nu storage) (current_line_id (pkt st))
                    else nu_line (loc st))
              = (if last_line (pkt st) =? 0
                 then get f0 (line_list_nu storage) (current_line_id (pkt st))
                 else nu_line (loc st))).
  { destruct (last_line (pkt st) =? 0); reflexivity. }
  rewrite N. rewrite D. reflexivity.
Qed.

Lemma event_of_again (storage : StorageModel) (st : State) :
  close_line (pkt st) <> 1 ->
  event_of storage (candidate_distances storage st) = event_of storage st.
Proof.
  intros Hc. unfold event_of.
  destruct (candidate_distances_again storage st Hc) as [_ ->]. reflexivity.
Qed.

(** When no comparison of the chain holds and no close line is pending, the
    next iteration meets the same distances: the loop never exits. *)
Lemma main_loop_stuck (mfuel : nat) (storage : StorageModel) :
  forall fuel st,
    close_line (pkt st) <> 1 ->
    event_of storage st = None ->
    main_loop fuel mfuel storage st = OutOfFuel.
Proof.
  induction fuel as [|fuel IH]; intros st Hc He; cbn [main_loop].
  - reflexivity.
  - rewrite (iteration_no_event mfuel storage st He). cbn [bind].
    apply IH.
    + destruct (candidate_distances_again storage st Hc) as [-> _]. exact Hc.
    + rewrite event_of_again; assumption.
Qed.
Lemma candidate_distances_pkt (storage : StorageModel) (st : State) :
  pkt (candidate_distances storage st)
  = mkPacket (current_nu (pkt st)) (current_energy (pkt st))
      (current_mu (pkt st)) (current_shell_id (pkt st)) (current_r (pkt st))
      (comov_current_nu (pkt st)) (current_line_id (pkt st))
      (last_line (pkt st))
      (if close_line (pkt st) =? 1 then 0 else close_line (pkt st))
      (recently_crossed_boundary (pkt st)).
Proof.
  unfold candidate_distances.
  destruct (close_line (pkt st) =? 1); [reflexivity |].
  destruct (if last_line (pkt st) =? 1 then _ else _).
  destruct (pkt st). reflexivity.
Qed.

(** The outer handler in the outermost shell ends the loop with
    [reabsorbed = 0], and leaves frequency and energy as they were. *)
Lemma main_loop_escapes (fuel mfuel : nat) (storage : StorageModel) (st : State) :
  event_of storage st = Some OUTER ->
  no_of_shells storage - 1 <= current_shell_id (pkt st) ->
  exists st',
    main_loop (S fuel) mfuel storage st = Ok (0, st')
    /\ current_nu (pkt st') = current_nu (pkt st)
    /\ current_energy (pkt st') = current_energy (pkt st).
Proof.
  intros He Hs. cbn [main_loop]. unfold iteration. rewrite He.
  cbn [handle bind]. unfold propagate_outwards.
  rewrite candidate_distances_pkt. cbn [current_shell_id].
  destruct (current_shell_id (pkt st) <? no_of_shells storage - 1) eqn:E;
    [lia |].
  eexists. split; [reflexivity |]. split; reflexivity.
Qed.

(** The inner handler in shell 0 ends the loop with [reabsorbed = 1]. *)
Lemma main_loop_reabsorbs (fuel mfuel : nat) (storage : StorageModel) (st : State) :
  event_of storage st = Some INNER ->
  current_shell_id (pkt st) <= 0 ->
  exists st',
    main_loop (S fuel) mfuel storage st = Ok (1, st')
    /\ current_nu (pkt st') = current_nu (pkt st)
    /\ current_energy (pkt st') = current_energy (pkt st).
Proof.
  intros He Hs. cbn [main_loop]. unfold iteration. rewrite He.
  cbn [handle bind]. unfold propagate_inwards.
  rewrite candidate_distances_pkt. cbn [current_shell_id].
  destruct (current_shell_id (pkt st) >? 0) eqn:E; [lia |].
  eexists. split; [reflexivity |]. split; reflexivity.
Qed.

(** *** The driver *)

Lemma start_packet_close_line (storage : StorageModel) (i cl : Z) (p : Packet) :
  start_packet storage i cl = Ok p -> close_line p = cl.
Proof.
  unfold start_packet. destruct (binary_search _ _ _ _); [| discriminate].
  intros [= <-]. reflexivity.
Qed.

(** When the first packet meets a first iteration in which no comparison of
    the chain holds, the driver never returns. *)
Lemma first_packet_stuck (fuel mfuel : nat) (model : Model) (seed : rk_state)
  (p : Packet) :
  let storage := StorageModel_init model in
  5 <= no_of_packets storage ->
  start_packet storage 0 0 = Ok p ->
  event_of storage
    (initial_state p
       (announce storage 0 (mkWorld (js storage) (nubars storage) seed [])))
  = None ->
  montecarlo_radial1d fuel mfuel model seed = OutOfFuel.
Proof.
  intros storage HN Hp He. unfold montecarlo_radial1d. fold storage.
  destruct (Z.to_nat (no_of_packets storage)) as [|n] eqn:En; [lia |].
  cbn [seq packets_loop]. unfold packet_body.
  assert (Hq : (Z.quot (no_of_packets storage) 5 =? 0) = false).
  { apply Z.eqb_neq. intros Hq.
    pose proof (Z.quot_rem' (no_of_packets storage) 5) as Hd.
    pose proof (Z.rem_bound_pos (no_of_packets storage) 5 ltac:(lia) ltac:(lia)).
    lia. }
  cbn [Z.of_nat driver_world driver_close_line].
  rewrite Hq, Hp. cbn [bind].
  unfold montecarlo_one_packet.
  rewrite main_loop_stuck; [reflexivity | | exact He].
  unfold initial_state. destruct (rk_double _). cbn [pkt].
  rewrite (start_packet_close_line _ _ _ _ Hp). discriminate.
Qed.


(** On a table of two lines or more the driver never raises [last_line]:
    the search cannot return the length of the table. *)
Lemma start_packet_last_line (storage : StorageModel) (i cl : Z) (p : Packet) :
  2 <= no_of_lines storage ->
  start_packet storage i cl = Ok p ->
  last_line p = 0 /\ 1 <= current_line_id p <= no_of_lines storage - 1.
Proof.
  intros HL. unfold start_packet.
  destruct (binary_search _ _ _ _) as [k|] eqn:E; [| discriminate].
  apply binary_search_bracket in E; [| exact HL].
  intros [= <-]. cbn [last_line current_line_id].
  destruct (k =? no_of_lines storage) eqn:K; [lia |]. split; [reflexivity | lia].
Qed.

(** *** The claims that hold at any arithmetic *)

(** C3.  [StorageModel.__init__] leaves [transition_line_id] NULL (its
    second assignment to [destination_level_id] was meant for it), so the
    macro atom, called on the storage of any model as the line handler calls
    it, never returns a line id: for every amount of fuel, activated level,
    shell and generator state the run faults or does not end. *)
Theorem macro_atom_never_returns_line (model : Model) (fuel : nat)
  (activate_level cur_zone_id : Z) (seed : rk_state) :
  let storage := StorageModel_init model in
  let run :=
    macro_atom fuel activate_level
      (transition_probabilities storage) (transition_probabilities_nd storage)
      (transition_type storage) (destination_level_id storage)
      (transition_line_id storage) (macro_block_references storage)
      cur_zone_id seed in
  transition_line_id storage = None /\ (run = Fault \/ run = OutOfFuel).
Proof.
  intros storage. split; [reflexivity |].
  change (transition_line_id storage) with (@None (list Z)).
  apply macro_atom_null_line_table.
Qed.

(** For every model the snapshot's [transition_type] is its
    [macro_block_references]. *)
Lemma transition_type_is_block_references (model : Model) :
  transition_type (StorageModel_init model)
  = macro_block_references (StorageModel_init model).
Proof. reflexivity. Qed.

(** C2.  In the snapshot of the two-level atom (MACRO mode) the one
    transition slot is an emission, type code -1; the array
    [transition_type] handed to the kernel holds the block references
    [0; 1] instead, and slot 0 reads 0. *)
Theorem transition_type_holds_block_references :
  let storage := StorageModel_init two_level in
  line_interaction_id storage = 2
  /\ macro_atom_data_transition_type two_level = [-1]
  /\ transition_type storage = Some [0; 1]
  /\ transition_type storage = macro_block_references storage
  /\ load 0 (transition_type storage) 0 = Ok 0.
Proof. cbv zeta. repeat split. Qed.

(** Where the driver does get through packet [i], the event loop returned
    [reabsorbed] from a final iteration that is either the outer handler in
    the outermost shell, with [reabsorbed = 0] and the frequency and energy
    written as they are, or the inner handler in shell 0, with
    [reabsorbed = 1] and both written negated. *)
Theorem reabsorbed_dichotomy (fuel mfuel : nat) (storage : StorageModel)
  (i : Z) (dr dr' : Driver) :
  packet_body fuel mfuel storage i dr = Ok dr' ->
  exists (p : Packet) (reabsorbed : Z) (st final : State),
    start_packet storage i (driver_close_line dr) = Ok p
    /\ montecarlo_one_packet fuel mfuel storage p
         (announce storage i (driver_world dr)) 0 = Ok (reabsorbed, st)
    /\ iteration mfuel storage final = Ok (Break reabsorbed st)
    /\ ((reabsorbed = 0
         /\ event_of storage final = Some OUTER
         /\ no_of_shells storage - 1 <= current_shell_id (pkt final)
         /\ output_nus dr' = set (output_nus dr) i (current_nu (pkt st))
         /\ output_energies dr'
            = set (output_energies dr) i (current_energy (pkt st)))
        \/ (reabsorbed = 1
            /\ event_of storage final = Some INNER
            /\ current_shell_id (pkt final) <= 0
            /\ output_nus dr' = set (output_nus dr) i (-. current_nu (pkt st))
            /\ output_energies dr'
               = set (output_energies dr) i (-. current_energy (pkt st)))).
Proof.
  unfold packet_body.
  destruct (Z.quot (no_of_packets storage) 5 =? 0); [discriminate |].
  destruct (start_packet storage i (driver_close_line dr)) as [p| |];
    cbn [bind]; try discriminate.
  destruct (montecarlo_one_packet fuel mfuel storage p _ 0)
    as [[reabsorbed st]| |] eqn:Hrun; cbn [bind]; try discriminate.
  destruct (record_outcome _ _ _ _ _ _) as [nus energies] eqn:Hrec.
  intros [= <-]. cbn [output_nus output_energies].
  destruct (main_loop_break _ _ _ _ _ _ Hrun) as [final Hfinal].
  exists p, reabsorbed, st, final. repeat split; try assumption.
  unfold record_outcome in Hrec.
  destruct (iteration_break _ _ _ _ _ Hfinal) as [(He & Hs & ->)|(He & Hs & ->)];
    cbn in Hrec; injection Hrec as <- <-; [left | right]; repeat split;
    assumption.
Qed.


(** C9.  The electron-scatter handler sets the direction, the frequency,
    the energy, the optical depth to the next event and the boundary flag,
    and leaves [current_line_id], [last_line] and [close_line] as they
    were. *)
Theorem electron_scatter_keeps_line_cursor (storage : StorageModel) (st : State) :
  let p := pkt st in
  let m := move_packet (current_r p) (current_mu p) (current_nu p)
             (current_energy p) (d_electron (loc st)) (w_js (world st))
             (w_nubars (world st)) (inverse_time_explosion storage)
             (current_shell_id p) in
  let draw1 := rk_double (mt_state (world st)) in
  let draw2 := rk_double (snd draw1) in
  let mu' := f2 *. fst draw1 -. f1 in
  let inverse_doppler_factor :=
    f1 /. (f1 -. (mu' *. mv_r m *. inverse_time_explosion storage *. inverse_c)) in
  let st' := electron_scatter storage st in
  current_line_id (pkt st') = current_line_id p
  /\ last_line (pkt st') = last_line p
  /\ close_line (pkt st') = close_line p
  /\ current_mu (pkt st') = mu'
  /\ current_nu (pkt st')
     = current_nu p *. mv_doppler m *. inverse_doppler_factor
  /\ current_energy (pkt st')
     = current_energy p *. mv_doppler m *. inverse_doppler_factor
  /\ tau_event (loc st') = -. log (fst draw2)
  /\ recently_crossed_boundary (pkt st') = 0.
Proof.
  unfold electron_scatter. cbv zeta.
  destruct (rk_double (mt_state (world st))) as [u1 rng1]. cbn [fst snd].
  destruct (rk_double rng1) as [u2 rng2]. cbn.
  repeat split.
Qed.
End KernelFacts.

(** ** The one-shell snapshots, at any arithmetic *)

Section OneShell.

Context {F : Type} {F64 : Float64 F} {M : MathH F} {RK : RandomKit F}.

(** The line search of the driver takes two iterations. *)
Lemma start_packet_one_shell (third : F) :
  (third <. one_shell_comov) = true ->
  (f4 <. one_shell_comov) = false ->
  start_packet (StorageModel_init (one_shell third)) 0 0 = Ok one_shell_packet.
Proof.
  intros H3 H4. unfold start_packet, binary_search.
  cbn -[f4 f8 inverse_c]. fold one_shell_comov.
  change (Pos.to_nat 4) with 4%nat.
  cbn -[f4 f8 inverse_c].
  change (Pos.to_nat 2) with 2%nat. change (Pos.to_nat 1) with 1%nat.
  cbv iota. rewrite H3, H4. reflexivity.
Qed.

(** The locals after the distance computation of the first iteration. *)
Lemma distances_one_shell (third u : F) (w : World) (rng : rk_state) :
  rk_double (mt_state w) = (u, rng) ->
  loc (candidate_distances (StorageModel_init (one_shell third))
         (initial_state one_shell_packet w))
  = mkLocals miss_distance
      (compute_distance2outer cgs_c f1 (f2 *. cgs_c))
      (fst (compute_distance2line cgs_c f1 f2 third f4 (f1 /. f4) f4
              (f1 /. f4) 0))
      (compute_distance2electron cgs_c f1 (-. log u) (f1 /. f1))
      (-. log u) third 0.
Proof.
  intros Hu. unfold initial_state. rewrite Hu.
  unfold candidate_distances.
  cbn -[f4 f8 inverse_c compute_distance2outer compute_distance2line
        compute_distance2electron miss_distance].
  destruct (compute_distance2line _ _ _ _ _ _ _ _ _) as [d out].
  reflexivity.
Qed.
End OneShell.

(** ** Exact real arithmetic *)

Section Exact.

Local Open Scope R_scope.

Lemma Rltb_true (a b : R) : a < b -> Rltb a b = true.
Proof.
  intros H. unfold Rltb. destruct (Rlt_dec a b); [reflexivity | contradiction].
Qed.

Lemma Rltb_false (a b : R) : b <= a -> Rltb a b = false.
Proof. intros H. unfold Rltb. destruct (Rlt_dec a b); [lra | reflexivity]. Qed.

Lemma Rleb_true (a b : R) : a <= b -> Rleb a b = true.
Proof.
  intros H. unfold Rleb. destruct (Rle_dec a b); [reflexivity | contradiction].
Qed.

(** *** The chain of comparisons *)

(** What each outcome of the chain means for the four distances. *)
Lemma select_event_cases (o i e l : R) :
  match select_event o i e l with
  | Some OUTER => o < i /\ o < e /\ o < l
  | Some INNER => i < o /\ i < e /\ i < l
  | Some ELECTRON => e < o /\ e < i /\ e < l
  | Some LINE => l < o /\ l < i /\ l < e
  | None => ~ (o < i /\ o < e /\ o < l) /\ ~ (i < o /\ i < e /\ i < l)
            /\ ~ (e < o /\ e < i /\ e < l) /\ ~ (l < o /\ l < i /\ l < e)
  end.
Proof.
  unfold select_event. real_ops. unfold Rltb.
  repeat (match goal with
          | |- context [Rlt_dec ?a ?b] => destruct (Rlt_dec a b)
          end; cbn [andb]); repeat split; try lra.
Qed.

(** A distance strictly below the three others selects its own handler, and
    only then is a handler selected. *)
Lemma select_event_strict_minimum (o i e l : R) :
  (o < i /\ o < e /\ o < l <-> select_event o i e l = Some OUTER)
  /\ (i < o /\ i < e /\ i < l <-> select_event o i e l = Some INNER)
  /\ (e < o /\ e < i /\ e < l <-> select_event o i e l = Some ELECTRON)
  /\ (l < o /\ l < i /\ l < e <-> select_event o i e l = Some LINE).
Proof.
  pose proof (select_event_cases o i e l) as H.
  destruct (select_event o i e l) as [[ | | | ]|];
    repeat split; intros; try discriminate; try reflexivity; try lra;
    exfalso; lra.
Qed.

(** *** The three claims on formulas *)

Lemma doppler_exact (r mu t_exp : R) :
  1 - mu * r * (1 / t_exp) * (1 / 29979245800)
  = 1 - mu * r / (29979245800 * t_exp).
Proof. unfold Rdiv. rewrite Rinv_mult. ring. Qed.


(** C8, amended.  In exact arithmetic, for a radius [r >= 0] with
    [r_in <= r <= r_out] and a direction cosine [mu] in [-1, 1], the
    discriminant is non-negative and the distance to the outer boundary,
    [sqrt (r_out^2 + (mu^2 - 1) r^2) - r mu], is non-negative. *)
Theorem distance2outer_nonnegative_exact (r mu r_in r_out : R) :
  0 <= r -> r_in <= r <= r_out -> -1 <= mu <= 1 ->
  0 <= r_out ^ 2 + (mu ^ 2 - 1) * r ^ 2
  /\ compute_distance2outer r mu r_out
     = R_sqrt.sqrt (r_out ^ 2 + (mu ^ 2 - 1) * r ^ 2) - r * mu
  /\ 0 <= compute_distance2outer r mu r_out.
Proof.
  intros Hr0 Hr Hmu. unfold compute_distance2outer. real_ops.
  replace (r_out * r_out + (mu * mu - 1) * (r * r))
    with (r_out ^ 2 + (mu ^ 2 - 1) * r ^ 2) by ring.
  assert (Hd : (r * mu) * (r * mu) <= r_out ^ 2 + (mu ^ 2 - 1) * r ^ 2) by nra.
  assert (H0 : 0 <= r_out ^ 2 + (mu ^ 2 - 1) * r ^ 2) by nra.
  split; [exact H0 |]. split; [reflexivity |].
  destruct (Rle_dec (r * mu) 0) as [Hneg|Hpos].
  - pose proof (sqrt_pos (r_out ^ 2 + (mu ^ 2 - 1) * r ^ 2)). lra.
  - apply sqrt_le_1_alt in Hd. rewrite sqrt_square in Hd by lra. lra.
Qed.

(** C10.  For every distance [d <= 0], negative ones included,
    [move_packet] returns the Doppler factor [1 - mu r / (c t_exp)] and
    leaves [r], [mu], [js] and [nubars] as they were, and prints nothing. *)
Theorem move_packet_nonpositive_distance (r mu nu energy distance t_exp : R)
  (js nubars : list R) (cur_zone_id : Z) :
  distance <= 0 ->
  move_packet r mu nu energy distance js nubars (1 / t_exp) cur_zone_id
  = mkMoved (1 - mu * r / (c * t_exp)) r mu js nubars [].
Proof.
  intros Hd. rewrite move_packet_nonpositive.
  - real_ops. rewrite doppler_exact. reflexivity.
  - apply Rleb_true. exact Hd.
Qed.


(** C8, amended, at [r = 2] between [r_in = 1] and [r_out = 3] with
    [mu = 1/2]. *)
Lemma distance2outer_nonnegative_exact_witness :
  0 <= 2 /\ 1 <= 2 <= 3 /\ -1 <= 1 / 2 <= 1
  /\ 0 <= compute_distance2outer 2 (1 / 2) 3.
Proof.
  assert (H1 : 0 <= 2) by lra.
  assert (H2 : 1 <= 2 <= 3) by lra.
  assert (H3 : -1 <= 1 / 2 <= 1) by lra.
  repeat split; try lra.
  apply (distance2outer_nonnegative_exact 2 (1 / 2) 1 3 H1 H2 H3).
Defined.

(** C10 at the distance [-1]. *)
Lemma move_packet_nonpositive_distance_witness :
  -1 <= 0
  /\ move_packet 2 (1 / 2) 3 4 (-1) [0] [0] (1 / 5) 0
     = mkMoved (1 - 1 / 2 * 2 / (c * 5)) 2 (1 / 2) [0] [0] [].
Proof.
  assert (H : -1 <= 0) by lra.
  split; [exact H |].
  apply (move_packet_nonpositive_distance 2 (1 / 2) 3 4 (-1) 5 [0] [0] 0 H).
Defined.

(** *** The one-shell snapshots *)

Lemma one_shell_comov_exact : one_shell_comov = 3 / 2.
Proof. unfold one_shell_comov. real_ops. lra. Qed.

Lemma start_packet_exact (third : R) :
  third < 3 / 2 ->
  start_packet (StorageModel_init (one_shell third)) 0 0 = Ok one_shell_packet.
Proof.
  intros H. apply start_packet_one_shell; rewrite one_shell_comov_exact.
  - apply Rltb_true. exact H.
  - apply Rltb_false. real_ops. lra.
Qed.

Lemma distance2outer_exact :
  compute_distance2outer (F:=R) cgs_c f1 (f2 *. cgs_c) = c.
Proof.
  unfold compute_distance2outer. real_ops.
  replace (2 * 29979245800 * (2 * 29979245800)
           + (1 * 1 - 1) * (29979245800 * 29979245800))
    with (59958491600 * 59958491600) by lra.
  rewrite sqrt_square by lra. lra.
Qed.

Lemma distance2line_exact (third : R) :
  fst (compute_distance2line (F:=R) cgs_c f1 f2 third f4 (f1 /. f4) f4
         (f1 /. f4) 0)
  = (3 / 2 - third) * (2 * c).
Proof. unfold compute_distance2line. cbn [fst]. real_ops. lra. Qed.

Lemma distance2electron_exact :
  c < compute_distance2electron (F:=R) cgs_c f1 (-. log (1 / 2)) (f1 /. f1).
Proof.
  unfold compute_distance2electron. real_ops.
  replace (1 / 2) with (/ 2) by lra.
  rewrite ln_Rinv by lra. pose proof ln_lt_2. lra.
Qed.

(** The first iteration of the first packet of [tied]: the distances to
    the outer boundary and to the line are both [c], the smallest of the
    four. *)
Lemma distances_tied (w : @World R coin) :
  mt_state w = [] ->
  let l := loc (candidate_distances (StorageModel_init tied)
                  (initial_state one_shell_packet w)) in
  d_outer l = c /\ d_line l = c /\ d_inner l = 1e99 /\ c < d_electron l.
Proof.
  intros Hw. cbv zeta. unfold tied.
  rewrite (distances_one_shell _ (1 / 2) w []) by (rewrite Hw; reflexivity).
  cbn [d_outer d_line d_inner d_electron].
  rewrite distance2outer_exact, distance2line_exact.
  pose proof distance2electron_exact.
  repeat split; try assumption. real_ops. lra.
Qed.

Lemma event_of_tied (w : @World R coin) :
  mt_state w = [] ->
  event_of (StorageModel_init tied) (initial_state one_shell_packet w) = None.
Proof.
  intros Hw. unfold event_of.
  destruct (distances_tied w Hw) as (Ho & Hl & Hi & He).
  rewrite Ho, Hl, Hi.
  pose proof (select_event_cases c 1e99
                (d_electron (loc (candidate_distances (StorageModel_init tied)
                  (initial_state one_shell_packet w)))) c) as Hc.
  destruct (select_event _ _ _ _) as [[ | | | ]|]; [exfalso .. | reflexivity];
    revert Hc He; real_ops; generalize (d_electron (loc (candidate_distances (StorageModel_init tied)
                  (initial_state one_shell_packet w)))); intros; lra.
Qed.

Lemma event_of_free (w : @World R coin) :
  mt_state w = [] ->
  event_of (StorageModel_init free) (initial_state one_shell_packet w)
  = Some OUTER.
Proof.
  intros Hw. unfold event_of, free.
  rewrite (distances_one_shell _ (1 / 2) w []) by (rewrite Hw; reflexivity).
  cbn [d_outer d_line d_inner d_electron].
  rewrite distance2outer_exact, distance2line_exact.
  apply select_event_strict_minimum.
  pose proof distance2electron_exact. repeat split; try assumption;
    real_ops; lra.
Qed.

(** C4.  In the first iteration of the first packet of [tied] the distances
    to the outer boundary and to the line are both [c], below the two
    others: the minimum is tied, no comparison of the chain holds, no handler
    runs, and the iteration goes on with the state the distance computation
    left. *)
Theorem tied_minimum_runs_no_handler (mfuel : nat) :
  let storage := StorageModel_init tied in
  let st := initial_state one_shell_packet
              (announce storage 0
                 (mkWorld (RK:=coin) (js storage) (nubars storage) [] [])) in
  let l := loc (candidate_distances storage st) in
  start_packet storage 0 0 = Ok one_shell_packet
  /\ d_outer l = c /\ d_line l = c /\ d_inner l = 1e99 /\ c < d_electron l
  /\ event_of storage st = None
  /\ iteration mfuel storage st = Ok (Continue (candidate_distances storage st)).
Proof.
  cbv zeta.
  split; [apply start_packet_exact; real_ops; lra |].
  destruct (distances_tied (announce (StorageModel_init tied) 0
              (mkWorld (RK:=coin) (js (StorageModel_init tied))
                 (nubars (StorageModel_init tied)) [] [])) eq_refl)
    as (Ho & Hl & Hi & He).
  repeat split; try assumption.
  - apply event_of_tied. reflexivity.
  - apply iteration_no_event. apply event_of_tied. reflexivity.
Qed.

(** C5.  On [tied] the driver never returns, whatever the fuel: the first
    packet stays in its first position for ever, neither moved nor advanced
    along the line list. *)
Theorem tied_packet_never_exits (fuel mfuel : nat) :
  montecarlo_radial1d (RK:=coin) fuel mfuel tied [] = OutOfFuel.
Proof.
  apply (first_packet_stuck (RK:=coin) fuel mfuel tied [] one_shell_packet).
  - cbn. lia.
  - apply start_packet_exact. real_ops. lra.
  - apply event_of_tied. reflexivity.
Qed.

(** C6.  Packet 0 of [tied] gets neither flag.  The driver hands it to the
    event loop, the event loop returns no [reabsorbed], whatever the fuel,
    and the driver does not reach the lines that write [output_nus[0]] and
    [output_energies[0]]: the flag is not "always 0 or 1, never neither".
    The defect is the one of C4 and C5, the chain of strict comparisons
    without a branch for a tied minimum. *)
Theorem tied_packet_gets_no_flag (fuel mfuel : nat) :
  let storage := StorageModel_init tied in
  let dr := mkDriver (zeros (no_of_packets storage))
              (zeros (no_of_packets storage)) 0
              (mkWorld (RK:=coin) (js storage) (nubars storage) [] []) in
  start_packet storage 0 (driver_close_line dr) = Ok one_shell_packet
  /\ montecarlo_one_packet fuel mfuel storage one_shell_packet
       (announce storage 0 (driver_world dr)) 0 = OutOfFuel
  /\ packet_body fuel mfuel storage 0 dr = OutOfFuel.
Proof.
  cbv zeta. cbn [driver_close_line driver_world].
  assert (Hp : start_packet (StorageModel_init tied) 0 0 = Ok one_shell_packet)
    by (apply start_packet_exact; real_ops; lra).
  assert (Hrun : forall w : @World R coin,
            mt_state w = [] ->
            montecarlo_one_packet fuel mfuel (StorageModel_init tied)
              one_shell_packet w 0 = OutOfFuel).
  { intros w Hw. unfold montecarlo_one_packet. apply main_loop_stuck.
    - unfold initial_state. destruct (rk_double _). cbn. discriminate.
    - apply event_of_tied. exact Hw. }
  split; [exact Hp |]. split; [apply Hrun; reflexivity |].
  unfold packet_body. cbn [driver_close_line driver_world].
  change (no_of_packets (StorageModel_init tied)) with 5%Z.
  change (Z.quot 5 5 =? 0)%Z with false. cbv iota.
  rewrite Hp. cbn [bind]. rewrite Hrun by reflexivity. reflexivity.
Qed.

(** The first packet of [free]: it escapes through the outer
    boundary, and the driver writes its frequency 2 and its energy 1. *)
Lemma reabsorbed_dichotomy_witness :
  exists dr',
    packet_body (F:=R) 1 0 (StorageModel_init free) 0
      (mkDriver (zeros 5) (zeros 5) 0 (mkWorld (RK:=coin) [0] [0] [] []))
    = Ok dr'
    /\ output_nus dr' = [2; 0; 0; 0; 0]
    /\ output_energies dr' = [1; 0; 0; 0; 0].
Proof.
  destruct (main_loop_escapes 0 0 (StorageModel_init free)
              (initial_state one_shell_packet
                 (announce (StorageModel_init free) 0
                    (mkWorld (RK:=coin) [0] [0] [] []))))
    as (st' & Hrun & Hnu & He).
  { apply event_of_free. reflexivity. }
  { unfold initial_state. destruct (rk_double _). cbn. lia. }
  assert (H : packet_body (F:=R) 1 0 (StorageModel_init free) 0
      (mkDriver (zeros 5) (zeros 5) 0 (mkWorld (RK:=coin) [0] [0] [] []))
      = Ok (mkDriver [current_nu (pkt st'); 0; 0; 0; 0]
              [current_energy (pkt st'); 0; 0; 0; 0]
              (close_line (pkt st')) (world st'))).
  { unfold packet_body.
    cbn [driver_world driver_close_line].
    change (no_of_packets (StorageModel_init free)) with 5%Z.
    change (Z.quot 5 5 =? 0)%Z with false. cbv iota.
    assert (Hp : start_packet (StorageModel_init free) 0 0 = Ok one_shell_packet)
      by (apply start_packet_exact; real_ops; lra).
    rewrite Hp. cbn [bind].
    unfold montecarlo_one_packet. rewrite Hrun. cbn [bind].
    reflexivity. }
  eexists. split; [exact H |].
  destruct (reabsorbed_dichotomy _ _ _ _ _ _ H)
    as (p & reabsorbed & st & final & Hp & Hone & _ & Hcase).
  assert (Hp0 : start_packet (StorageModel_init free) 0 0 = Ok one_shell_packet)
    by (apply start_packet_exact; real_ops; lra).
  cbn [driver_close_line driver_world] in Hp, Hone.
  rewrite Hp0 in Hp. injection Hp as <-.
  unfold montecarlo_one_packet in Hone. rewrite Hrun in Hone.
  injection Hone as <- <-.
  destruct Hcase as [(_ & _ & _ & -> & ->)|(Hr & _)]; [| discriminate].
  rewrite Hnu, He. unfold initial_state. destruct (rk_double _).
  cbn. real_ops. split; reflexivity.
Defined.

End Exact.

(** ** Binary64 *)

(** C1.  On the strictly decreasing table [30; 20; 10] the search returns 2
    for the frequency 5, which lies below the last entry: the specified
    result is the length 3, and entry 2 is 10 > 5.  It returns 1 for 35,
    where the smallest index is 0, and 2 for 20, where it is 1; for 25 it
    does return the smallest index, 1. *)
Theorem binary_search_misses_line_search :
  let nu := [30; 20; 10]%float in
  strictly_decreasing nu = true
  /\ binary_search nu 5%float 0 3 = Some 2 /\ LineSearch nu 5%float = 3
  /\ binary_search nu 35%float 0 3 = Some 1 /\ LineSearch nu 35%float = 0
  /\ binary_search nu 20%float 0 3 = Some 2 /\ LineSearch nu 20%float = 1
  /\ binary_search nu 25%float 0 3 = Some 1 /\ LineSearch nu 25%float = 1.
Proof. vm_compute. repeat split. Qed.

(** C8, as stated, fails in binary64: at [r = r_outer = 1] and [mu = 0.3],
    inside the ranges of the claim for [r_inner = 0.5], the computed
    distance to the outer boundary is negative (about -5.6e-17). *)
Lemma distance2outer_negative_binary64 :
  (0.5 <=. 1)%float = true /\ (1 <=. 1)%float = true
  /\ (-1 <=. 0.3)%float = true /\ (0.3 <=. 1)%float = true
  /\ (compute_distance2outer 1 0.3 1 <. 0)%float = true.
Proof. vm_compute. repeat split. Qed.

(** The macro atom of the two-level atom, activated at level 0 in shell 0
    with the draw 0.5.  On the tables of the model it selects slot 0, an
    emission, and returns line 1; with the pointer [transition_line_id] that
    [StorageModel.__init__] leaves behind, the same call faults. *)
Lemma two_level_emission_binary64 :
  let storage := StorageModel_init (F:=float) two_level in
  let run (target_line_id : Ptr Z) :=
    macro_atom (RK:=coin64) 1 0
      (transition_probabilities storage) (transition_probabilities_nd storage)
      (Some (macro_atom_data_transition_type (F:=float) two_level))
      (Some (macro_atom_data_destination_level_idx (F:=float) two_level))
      target_line_id (macro_block_references storage) 0 [] in
  run (Some (macro_atom_data_lines_idx (F:=float) two_level)) = Ok (1, [])
  /\ run (transition_line_id storage) = Fault.
Proof. vm_compute. split; reflexivity. Qed.

(** The tie of [tied] is exact in binary64 too: both distances of the first
    iteration are [c], and the chain selects no handler for them. *)
Lemma tied_distances_binary64 :
  compute_distance2outer (F:=float) cgs_c f1 (f2 *. cgs_c) = c
  /\ fst (compute_distance2line (F:=float) cgs_c f1 f2 f1 f4 (f1 /. f4) f4
            (f1 /. f4) 0) = c
  /\ select_event (F:=float) c 1e99%float 1.5e24%float c = None.
Proof. vm_compute. repeat split. Qed.

(** The [abs] of line 811 in binary64: the difference is truncated to an
    [int] first, so 0.5 gives 0 and -1.5 gives 1, and a difference that does
    not fit an [int] gives [INT_MIN]. *)
Lemma abs_binary64_values :
  map (abs (F:=float)) [0.5; -1.5; 1e9; 3e9; -3e9]%float
  = [0; 1; 1e9; -2147483648; -2147483648]%float.
Proof. vm_compute. reflexivity. Qed.

(** The close-line check on the two lines of [two_level], at frequencies 2
    and 1, with the cursor on the second: after a line at 1.5 the check
    raises [close_line], the difference of 0.5 being truncated to 0; after
    a line at 101 it does not; after a line at 4e9 it does, the difference
    not fitting an [int]. *)
Lemma close_line_check_binary64 :
  let storage := StorageModel_init (F:=float) two_level in
  close_line_check storage 1 0 0 1.5%float = 1
  /\ close_line_check storage 1 0 0 101%float = 0
  /\ close_line_check storage 1 0 0 4e9%float = 1.
Proof. vm_compute. repeat split. Qed.

(** The first packet of [tied] never leaves the loop in binary64 either,
    with a C library whose logarithm of 0.5 is the correctly rounded
    value. *)
Lemma tied_never_exits_binary64 (lg : float -> float) (fuel mfuel : nat) :
  lg 0.5%float = (-0.6931471805599453)%float ->
  montecarlo_radial1d (M:=libm lg) (RK:=coin64) fuel mfuel tied []
  = OutOfFuel.
Proof.
  intros Hlg.
  apply (first_packet_stuck (M:=libm lg) (RK:=coin64) fuel mfuel tied []
           one_shell_packet).
  - vm_compute. discriminate.
  - apply start_packet_one_shell; vm_compute; reflexivity.
  - unfold event_of, tied.
    rewrite (distances_one_shell (M:=libm lg) (RK:=coin64) _ 0.5%float _ [])
      by reflexivity.
    cbn [d_outer d_inner d_electron d_line]. unfold compute_distance2electron.
    cbn [log libm]. rewrite Hlg. vm_compute. reflexivity.
Qed.

(** * Further properties *)

(** ** Arrays *)

Section Arrays.
Context {A : Type}.

Lemma set_nth_length (a : list A) (n : nat) (v : A) :
  List.length (set_nth a n v) = List.length a.
Proof.
  revert n. induction a as [|h t IH]; intros [|n]; cbn; try reflexivity.
  rewrite IH. reflexivity.
Qed.

Lemma set_length (a : list A) (i : Z) (v : A) :
  List.length (set a i v) = List.length a.
Proof.
  unfold set. destruct (i <? 0); [reflexivity | apply set_nth_length].
Qed.

Lemma nth_set_nth_same (d : A) (a : list A) (n : nat) (v : A) :
  (n < List.length a)%nat -> nth n (set_nth a n v) d = v.
Proof.
  revert n. induction a as [|h t IH]; intros [|n] H; cbn in * ; try lia.
  - reflexivity.
  - apply IH. lia.
Qed.

Lemma nth_set_nth_other (d : A) (a : list A) (n k : nat) (v : A) :
  n <> k -> nth k (set_nth a n v) d = nth k a d.
Proof.
  revert n k. induction a as [|h t IH]; intros [|n] [|k] H; cbn;
    try reflexivity; try lia.
  apply IH. lia.
Qed.

(** A write followed by a read of the same cell, inside the array, returns
    the value written. *)
Lemma get_set_same (d : A) (a : list A) (i : Z) (v : A) :
  0 <= i < Z.of_nat (List.length a) -> get d (set a i v) i = v.
Proof.
  intros H. unfold get, set.
  destruct (i <? 0) eqn:E; [apply Z.ltb_lt in E; lia |].
  apply nth_set_nth_same. lia.
Qed.

(** A write leaves every other cell as it was. *)
Lemma get_set_other (d : A) (a : list A) (i k : Z) (v : A) :
  i <> k -> get d (set a i v) k = get d a k.
Proof.
  intros H. unfold get, set.
  destruct (k <? 0) eqn:Ek; [reflexivity |].
  destruct (i <? 0) eqn:Ei; [reflexivity |].
  apply Z.ltb_ge in Ek, Ei. apply nth_set_nth_other. lia.
Qed.
End Arrays.

Lemma get_map {A B : Type} (f : A -> B) (da : A) (db : B) (a : list A) (i : Z) :
  0 <= i < Z.of_nat (List.length a) ->
  get db (map f a) i = f (get da a i).
Proof.
  intros H. unfold get. destruct (i <? 0) eqn:E; [apply Z.ltb_lt in E; lia |].
  rewrite (nth_indep _ db (f da)) by (rewrite length_map; lia).
  apply map_nth.
Qed.

(** ** The line search *)

Section LineSearchMore.
Context {F : Type} {F64 : Float64 F}.

End LineSearchMore.

(** ** The macro atom *)

Section MacroFacts.
Context {F : Type} {F64 : Float64 F} {M : MathH F} {RK : RandomKit F}.

(** Where the inner loop ends, by induction on its fuel. *)
Lemma macro_atom_block_first (p_transition : list F)
  (p_transition_nd cur_zone_id : Z) (event_random : F) :
  forall (fuel : nat) (p : F) (i0 i : Z),
    macro_atom_block fuel (Some p_transition) p_transition_nd cur_zone_id
      event_random p i0 = Ok i ->
    exists n : nat,
      i = i0 + Z.of_nat n /\ (n < fuel)%nat
      /\ (block_sum p_transition (cur_zone_id * p_transition_nd) p i0 (S n)
          >. event_random) = true
      /\ forall m : nat, (m < n)%nat ->
           (block_sum p_transition (cur_zone_id * p_transition_nd) p i0 (S m)
            >. event_random) = false.
Proof.
  induction fuel as [|fuel IH]; intros p i0 i; cbn [macro_atom_block].
  - discriminate.
  - cbn [load bind].
    destruct (event_random
              <. p +. get f0 p_transition (cur_zone_id * p_transition_nd + i0))
      eqn:T.
    + intros [= <-]. exists 0%nat.
      split; [lia |]. split; [lia |]. split; [exact T |].
      intros m Hm. lia.
    + intros Hrun. destruct (IH _ _ _ Hrun) as (n & -> & Hn & Hex & Hbefore).
      exists (S n).
      split; [lia |]. split; [lia |]. split; [exact Hex |].
      intros [|m] Hm; [exact T |]. apply Hbefore. lia.
Qed.

(** The inner loop of the macro atom selects the first slot at which the
    accumulated probability exceeds the draw. *)
Theorem macro_atom_block_selects_first (p_transition : list F)
  (p_transition_nd cur_zone_id : Z) (event_random : F) (fuel : nat) (p : F)
  (i0 i : Z) :
  macro_atom_block fuel (Some p_transition) p_transition_nd cur_zone_id
    event_random p i0 = Ok i ->
  exists n : nat,
    i = i0 + Z.of_nat n /\ (n < fuel)%nat
    /\ (block_sum p_transition (cur_zone_id * p_transition_nd) p i0 (S n)
        >. event_random) = true
    /\ forall m : nat, (m < n)%nat ->
         (block_sum p_transition (cur_zone_id * p_transition_nd) p i0 (S m)
          >. event_random) = false.
Proof. apply macro_atom_block_first. Qed.

(** If some accumulated probability of the block exceeds the draw, the
    inner loop returns, with fuel for the slots up to there, and its slot
    does not lie beyond. *)
Theorem macro_atom_block_returns (p_transition : list F)
  (p_transition_nd cur_zone_id : Z) (event_random : F) :
  forall (n fuel : nat) (p : F) (i0 : Z),
    (n < fuel)%nat ->
    (block_sum p_transition (cur_zone_id * p_transition_nd) p i0 (S n)
     >. event_random) = true ->
    exists i : Z,
      macro_atom_block fuel (Some p_transition) p_transition_nd cur_zone_id
        event_random p i0 = Ok i
      /\ i0 <= i <= i0 + Z.of_nat n.
Proof.
  induction n as [|n IH]; intros [|fuel] p i0 Hf Hex; try lia;
    cbn [macro_atom_block load bind].
  - cbn [block_sum] in Hex. rewrite Hex. exists i0. split; [reflexivity | lia].
  - destruct (event_random
              <. p +. get f0 p_transition (cur_zone_id * p_transition_nd + i0))
      eqn:T.
    + exists i0. split; [reflexivity | lia].
    + destruct (IH fuel (p +. get f0 p_transition
                                (cur_zone_id * p_transition_nd + i0))
                  (i0 + 1)) as (i & Hrun & Hi); [lia | exact Hex |].
      exists i. split; [exact Hrun | lia].
Qed.

(** Whatever the macro atom returns, it returns from a run of rounds. *)
Lemma macro_atom_sound (p_transition : list F) (p_transition_nd : Z)
  (type_transition target_level_id target_line_id unroll_reference : Ptr Z)
  (cur_zone_id : Z) :
  forall (fuel : nat) (activate_level : Z) (mt_state mt_state' : rk_state)
    (line : Z),
    macro_atom fuel activate_level (Some p_transition) p_transition_nd
      type_transition target_level_id target_line_id unroll_reference
      cur_zone_id mt_state = Ok (line, mt_state') ->
    macro_run p_transition p_transition_nd type_transition target_level_id
      target_line_id unroll_reference cur_zone_id activate_level mt_state
      line mt_state'.
Proof.
  induction fuel as [|fuel IH]; intros activate_level mt_state mt_state' line;
    cbn [macro_atom].
  - discriminate.
  - destruct (rk_double mt_state) as [event_random rng] eqn:Hdraw.
    destruct (load 0 unroll_reference activate_level) as [i0| |] eqn:Hi0;
      cbn [bind]; try discriminate.
    match goal with
    | |- context [macro_atom_block ?a ?b ?c ?d ?e ?f ?g] =>
        destruct (macro_atom_block a b c d e f g) as [i| |] eqn:Hblock
    end; cbn [bind]; try discriminate.
    destruct (load 0 type_transition i) as [emit| |] eqn:Hty; cbn [bind];
      try discriminate.
    destruct (load 0 target_level_id i) as [next| |] eqn:Hlv; cbn [bind];
      try discriminate.
    assert (Hround : macro_round p_transition p_transition_nd
                       unroll_reference cur_zone_id activate_level mt_state
                       i rng).
    { destruct (macro_atom_block_first _ _ _ _ _ _ _ _ Hblock)
        as (n & Hn & _ & Hex & Hbefore).
      exists i0, n. rewrite Hdraw. cbn [fst snd].
      repeat split; assumption. }
    destruct (emit =? -1) eqn:He.
    + apply Z.eqb_eq in He. subst emit.
      destruct (load 0 target_line_id i) as [l| |] eqn:Hl; cbn [bind];
        try discriminate.
      intros [= <- <-].
      eapply macro_emits; eassumption.
    + apply Z.eqb_neq in He. intros Hrest.
      eapply macro_jumps; try eassumption. apply IH. exact Hrest.
Qed.

(** The inner loop stops at the first slot at which the accumulated
    probability exceeds the draw, given fuel for the slots up to there. *)
Lemma macro_atom_block_stops (p_transition : list F)
  (p_transition_nd cur_zone_id : Z) (event_random : F) :
  forall (n fuel : nat) (p : F) (i0 : Z),
    (n < fuel)%nat ->
    flt event_random
      (block_sum p_transition (cur_zone_id * p_transition_nd) p i0 (S n))
    = true ->
    (forall m : nat, (m < n)%nat ->
       flt event_random
         (block_sum p_transition (cur_zone_id * p_transition_nd) p i0 (S m))
       = false) ->
    macro_atom_block fuel (Some p_transition) p_transition_nd cur_zone_id
      event_random p i0 = Ok (i0 + Z.of_nat n).
Proof.
  induction n as [|n IH]; intros [|fuel] p i0 Hf Hex Hbefore; try lia;
    cbn [macro_atom_block load bind].
  - cbn [block_sum] in Hex. rewrite Hex. f_equal. lia.
  - pose proof (Hbefore 0%nat ltac:(lia)) as H0. cbn [block_sum] in H0.
    rewrite H0. rewrite (IH fuel _ (i0 + 1)); [f_equal; lia | lia | exact Hex |].
    intros m Hm. exact (Hbefore (S m) ltac:(lia)).
Qed.

(** Every run of rounds is a run of the macro atom, given fuel enough. *)
Lemma macro_atom_complete (p_transition : list F) (p_transition_nd : Z)
  (type_transition target_level_id target_line_id unroll_reference : Ptr Z)
  (cur_zone_id : Z) (activate_level : Z) (mt_state : rk_state) (line : Z)
  (mt_state' : rk_state) :
  macro_run p_transition p_transition_nd type_transition target_level_id
    target_line_id unroll_reference cur_zone_id activate_level mt_state
    line mt_state' ->
  exists enough : nat,
    forall fuel : nat, (enough <= fuel)%nat ->
      macro_atom fuel activate_level (Some p_transition) p_transition_nd
        type_transition target_level_id target_line_id unroll_reference
        cur_zone_id mt_state = Ok (line, mt_state').
Proof.
  induction 1 as [level rng i next line rng' Hround Hty Hlv Hl
                 |level rng i emit next rng1 line rng' Hround Hty He Hlv _ IH].
  - destruct Hround as (i0 & n & Hi0 & -> & Hex & Hbefore & ->).
    exists (S n). intros [|fuel] Hf; [lia |]. cbn [macro_atom].
    destruct (rk_double rng) as [event_random rng1]. cbn [fst snd] in * .
    rewrite Hi0. cbn [bind].
    rewrite (macro_atom_block_stops _ _ _ _ n) by (assumption || lia).
    cbn [bind]. rewrite Hty, Hlv. cbn [bind Z.eqb Pos.eqb]. rewrite Hl.
    reflexivity.
  - destruct Hround as (i0 & n & Hi0 & -> & Hex & Hbefore & ->).
    destruct IH as [enough IH].
    exists (S (Nat.max n enough)). intros [|fuel] Hf; [lia |].
    cbn [macro_atom].
    destruct (rk_double rng) as [event_random rng2]. cbn [fst snd] in * .
    rewrite Hi0. cbn [bind].
    rewrite (macro_atom_block_stops _ _ _ _ n) by (assumption || lia).
    cbn [bind]. rewrite Hty, Hlv. cbn [bind].
    apply Z.eqb_neq in He. rewrite He. apply IH. lia.
Qed.

(** The macro atom returns a line and a generator state exactly on the
    runs of rounds the source describes ([macro_run]): every round draws
    its number from the generator the round before left, starts at the
    block of the level that round read, and selects the first slot at
    which the accumulated probability exceeds the number drawn; the last
    round selects an emission, the line returned is the entry of
    [target_line_id] at its slot, and the generator returned is the one
    after the last draw. *)
Theorem macro_atom_returns_emission_slot (p_transition : list F)
  (p_transition_nd : Z)
  (type_transition target_level_id target_line_id unroll_reference : Ptr Z)
  (cur_zone_id : Z) (activate_level : Z) (mt_state : rk_state) (line : Z)
  (mt_state' : rk_state) :
  (exists fuel : nat,
     macro_atom fuel activate_level (Some p_transition) p_transition_nd
       type_transition target_level_id target_line_id unroll_reference
       cur_zone_id mt_state = Ok (line, mt_state'))
  <-> macro_run p_transition p_transition_nd type_transition target_level_id
        target_line_id unroll_reference cur_zone_id activate_level mt_state
        line mt_state'.
Proof.
  split.
  - intros [fuel Hrun]. exact (macro_atom_sound _ _ _ _ _ _ _ _ _ _ _ _ Hrun).
  - intros Hrun.
    destruct (macro_atom_complete _ _ _ _ _ _ _ _ _ _ _ Hrun) as [enough H].
    exists enough. apply H. lia.
Qed.

End MacroFacts.

(** ** The packet mover *)

Section MoverFacts.
Context {F : Type} {F64 : Float64 F}.

(** What a call with a distance that is not [<= 0] leaves behind. *)
Lemma move_packet_positive (r mu nu energy distance : F) (js nubars : list F)
  (inverse_t_exp : F) (cur_zone_id : Z) :
  (distance <=. f0) = false ->
  let m := move_packet r mu nu energy distance js nubars inverse_t_exp
             cur_zone_id in
  let D := f1 -. (mu *. r *. inverse_t_exp *. inverse_c) in
  mv_doppler m = D
  /\ mv_r m = sqrt (sqr r +. sqr distance +. f2 *. r *. distance *. mu)
  /\ mv_mu m = (mu *. r +. distance) /. mv_r m
  /\ mv_js m = set js cur_zone_id
                 (get f0 js cur_zone_id +. energy *. D *. distance)
  /\ mv_nubars m = set nubars cur_zone_id
                     (get f0 nubars cur_zone_id
                      +. energy *. D *. distance *. (nu *. D)).
Proof.
  intros H. unfold move_packet. rewrite H. cbn. repeat split.
Qed.

(** A move changes the two estimators in the cell of the current shell
    only, by the comoving energy times the distance and, for [nubars],
    times the comoving frequency as well. *)
Theorem move_packet_estimators (r mu nu energy distance : F)
  (js nubars : list F) (inverse_t_exp : F) (cur_zone_id : Z) :
  let m := move_packet r mu nu energy distance js nubars inverse_t_exp
             cur_zone_id in
  let D := f1 -. (mu *. r *. inverse_t_exp *. inverse_c) in
  (distance <=. f0) = false ->
  0 <= cur_zone_id < Z.of_nat (List.length js) ->
  0 <= cur_zone_id < Z.of_nat (List.length nubars) ->
  get f0 (mv_js m) cur_zone_id
  = get f0 js cur_zone_id +. energy *. D *. distance
  /\ get f0 (mv_nubars m) cur_zone_id
     = get f0 nubars cur_zone_id +. energy *. D *. distance *. (nu *. D)
  /\ (forall k : Z, k <> cur_zone_id ->
        get f0 (mv_js m) k = get f0 js k
        /\ get f0 (mv_nubars m) k = get f0 nubars k)
  /\ List.length (mv_js m) = List.length js
  /\ List.length (mv_nubars m) = List.length nubars.
Proof.
  intros m D Hd Hj Hn. subst m D.
  destruct (move_packet_positive r mu nu energy distance js nubars
              inverse_t_exp cur_zone_id Hd) as (_ & _ & _ & -> & ->).
  rewrite !get_set_same by assumption. rewrite !set_length.
  repeat split.
  - apply get_set_other. congruence.
  - apply get_set_other. congruence.
Qed.

(** For a direction that is not inwards the distance to the inner boundary
    is the sentinel, whatever the radii. *)
Lemma compute_distance2inner_sentinel (r mu r_inner : F) :
  (mu <. f0) = false ->
  compute_distance2inner r mu r_inner = miss_distance.
Proof.
  intros H. unfold compute_distance2inner. rewrite H.
  match goal with
  | |- (if ?t then _ else _) = _ => destruct t
  end; reflexivity.
Qed.

End MoverFacts.

(** ** The event loop *)

Section LoopInvariants.
Context {F : Type} {F64 : Float64 F} {M : MathH F} {RK : RandomKit F}.

Lemma flags_ok_iff (storage : @StorageModel F) (p : @Packet F) :
  flags_ok storage p = true <->
  0 <= current_shell_id p <= no_of_shells storage - 1
  /\ (last_line p = 0 \/ last_line p = 1)
  /\ (close_line p = 0 \/ close_line p = 1)
  /\ (recently_crossed_boundary p = -1 \/ recently_crossed_boundary p = 0
      \/ recently_crossed_boundary p = 1).
Proof.
  unfold flags_ok.
  rewrite !andb_true_iff, !orb_true_iff, !Z.leb_le, !Z.eqb_eq. tauto.
Qed.

Lemma close_line_check_cases (storage : @StorageModel F) (k ll cl : Z) (x : F) :
  close_line_check storage k ll cl x = 1
  \/ close_line_check storage k ll cl x = cl.
Proof.
  unfold close_line_check. destruct (ll =? 0); [| right; reflexivity].
  destruct (flt _ _); [left | right]; reflexivity.
Qed.

(** What the line handler leaves of the flags. *)
Lemma line_scatter_flags (mfuel : nat) (storage : StorageModel) (st st' : State) :
  line_scatter mfuel storage st = Ok st' ->
  current_shell_id (pkt st') = current_shell_id (pkt st)
  /\ (last_line (pkt st') = 1 \/ last_line (pkt st') = last_line (pkt st))
  /\ (close_line (pkt st') = 1 \/ close_line (pkt st') = close_line (pkt st))
  /\ (recently_crossed_boundary (pkt st') = 0
      \/ recently_crossed_boundary (pkt st')
         = recently_crossed_boundary (pkt st)).
Proof.
  unfold line_scatter.
  destruct (flt (tau_event (loc st)) _).
  - destruct (rk_double (mt_state (world st))) as [u1 rng1].
    match goal with
    | |- bind ?m _ = _ -> _ => destruct m as [[e rng2]| |]
    end; cbn [bind]; try discriminate.
    destruct (rk_double rng2) as [u2 rng3].
    intros [= <-]. cbn [pkt current_shell_id last_line close_line
                          recently_crossed_boundary].
    repeat split.
    + destruct (current_line_id (pkt st) + 1 >=? no_of_lines storage);
        [left | right]; reflexivity.
    + apply close_line_check_cases.
    + left. reflexivity.
  - intros [= <-]. cbn [pkt current_shell_id last_line close_line
                          recently_crossed_boundary].
    repeat split.
    + destruct (current_line_id (pkt st) + 1 >=? no_of_lines storage);
        [left | right]; reflexivity.
    + apply close_line_check_cases.
    + right. reflexivity.
Qed.

(** An iteration keeps the shell index and the flags in their ranges, and
    the loop is left with [close_line] cleared. *)
Lemma iteration_keeps_flags (mfuel : nat) (storage : StorageModel)
  (st : State) (s : Step) :
  flags_ok storage (pkt st) = true ->
  iteration mfuel storage st = Ok s ->
  flags_ok storage (pkt (state_after s)) = true
  /\ (last_line (pkt st) = 1 -> last_line (pkt (state_after s)) = 1)
  /\ match s with
     | Continue _ => True
     | Break _ st' => close_line (pkt st') = 0
     end.
Proof.
  rewrite !flags_ok_iff. intros (Hs & Hl & Hc & Hb).
  unfold iteration.
  pose proof (candidate_distances_pkt storage st) as Hp.
  assert (Hc1 : close_line (pkt (candidate_distances storage st)) = 0
                \/ close_line (pkt (candidate_distances storage st)) = 1).
  { rewrite Hp. cbn [close_line]. destruct (close_line (pkt st) =? 1) eqn:E;
      [left; reflexivity |]. apply Z.eqb_neq in E. left. lia. }
  assert (Hc0 : close_line (pkt (candidate_distances storage st)) = 0).
  { rewrite Hp. cbn [close_line]. destruct (close_line (pkt st) =? 1) eqn:E;
      [reflexivity |]. apply Z.eqb_neq in E. lia. }
  destruct (event_of storage st) as [[ | | | ]|]; cbn [handle].
  - unfold propagate_outwards. rewrite Hp.
    cbn [current_shell_id last_line close_line recently_crossed_boundary].
    destruct (current_shell_id (pkt st) <? no_of_shells storage - 1) eqn:E;
      intros [= <-]; cbn [state_after pkt current_shell_id last_line
                            close_line recently_crossed_boundary].
    + apply Z.ltb_lt in E. rewrite Hp in Hc1. cbn [close_line] in Hc1.
      repeat split; try tauto; try lia.
    + rewrite Hp in Hc0, Hc1. cbn [close_line] in Hc0, Hc1.
      repeat split; try tauto; try lia.
  - unfold propagate_inwards. rewrite Hp.
    cbn [current_shell_id last_line close_line recently_crossed_boundary].
    destruct (current_shell_id (pkt st) >? 0) eqn:E;
      intros [= <-]; cbn [state_after pkt current_shell_id last_line
                            close_line recently_crossed_boundary].
    + apply Z.gtb_lt in E. rewrite Hp in Hc1. cbn [close_line] in Hc1.
      repeat split; try tauto; try lia.
    + rewrite Hp in Hc0, Hc1. cbn [close_line] in Hc0, Hc1.
      repeat split; try tauto; try lia.
  - intros [= <-]. cbn [state_after]. unfold electron_scatter.
    destruct (rk_double _) as [u1 rng1]. destruct (rk_double rng1) as [u2 rng2].
    cbn [pkt current_shell_id last_line close_line recently_crossed_boundary].
    rewrite Hp. cbn [current_shell_id last_line close_line].
    rewrite Hp in Hc1. cbn [close_line] in Hc1.
    repeat split; try tauto; try lia.
  - destruct (line_scatter mfuel storage _) as [st'| |] eqn:E; cbn [bind];
      try discriminate.
    intros [= <-]. cbn [state_after].
    destruct (line_scatter_flags _ _ _ _ E) as (H1 & H2 & H3 & H4).
    rewrite Hp in H1, H2, H3, H4.
    cbn [current_shell_id last_line close_line recently_crossed_boundary]
      in H1, H2, H3, H4.
    rewrite Hp in Hc1. cbn [close_line] in Hc1.
    rewrite H1. repeat split; try tauto; try lia.
  - intros [= <-]. cbn [state_after]. rewrite Hp.
    cbn [current_shell_id last_line close_line recently_crossed_boundary].
    rewrite Hp in Hc1. cbn [close_line] in Hc1.
    repeat split; try tauto; try lia.
Qed.

End LoopInvariants.

Section Shapes.
Context {F : Type} {F64 : Float64 F} {M : MathH F} {RK : RandomKit F}.

Lemma move_packet_lengths (r mu nu energy distance : F) (js nubars : list F)
  (inverse_t_exp : F) (cur_zone_id : Z) :
  let m := move_packet r mu nu energy distance js nubars inverse_t_exp
             cur_zone_id in
  List.length (mv_js m) = List.length js /\ List.length (mv_nubars m) = List.length nubars.
Proof.
  unfold move_packet. destruct (distance <=. f0); cbn.
  - split; reflexivity.
  - rewrite !set_length. split; reflexivity.
Qed.

Lemma candidate_distances_world (storage : StorageModel) (st : State) :
  w_js (world (candidate_distances storage st)) = w_js (world st)
  /\ w_nubars (world (candidate_distances storage st)) = w_nubars (world st)
  /\ mt_state (world (candidate_distances storage st)) = mt_state (world st).
Proof.
  unfold candidate_distances.
  destruct (close_line (pkt st) =? 1); [repeat split |].
  destruct (if last_line (pkt st) =? 1 then _ else _). repeat split.
Qed.

(** An iteration leaves the two estimator arrays at their lengths. *)
Lemma iteration_keeps_lengths (mfuel : nat) (storage : StorageModel)
  (st : State) (s : Step) :
  iteration mfuel storage st = Ok s ->
  List.length (w_js (world (state_after s))) = List.length (w_js (world st))
  /\ List.length (w_nubars (world (state_after s))) = List.length (w_nubars (world st)).
Proof.
  unfold iteration.
  destruct (candidate_distances_world storage st) as (Hj & Hn & _).
  rewrite <- Hj, <- Hn.
  generalize (candidate_distances storage st). intros st1.
  destruct (event_of storage st) as [[ | | | ]|]; cbn [handle].
  - unfold propagate_outwards.
    destruct (current_shell_id (pkt st1) <? _); intros [= <-];
      cbn [state_after world w_js w_nubars]; apply move_packet_lengths.
  - unfold propagate_inwards.
    destruct (current_shell_id (pkt st1) >? _); intros [= <-];
      cbn [state_after world w_js w_nubars]; apply move_packet_lengths.
  - intros [= <-]. cbn [state_after]. unfold electron_scatter.
    destruct (rk_double _) as [u1 rng1]. destruct (rk_double rng1) as [u2 rng2].
    cbn [world w_js w_nubars]. apply move_packet_lengths.
  - unfold line_scatter.
    destruct (flt (tau_event (loc st1)) _).
    + destruct (rk_double (mt_state (world st1))) as [u1 rng1].
      match goal with
      | |- bind (bind ?m _) _ = _ -> _ => destruct m as [[e rng2]| |]
      end; cbn [bind]; try discriminate.
      destruct (rk_double rng2) as [u2 rng3].
      intros [= <-]. cbn [state_after world w_js w_nubars].
      apply move_packet_lengths.
    + cbn [bind]. intros [= <-]. split; reflexivity.
  - intros [= <-]. split; reflexivity.
Qed.

(** What every iteration keeps, carried over the loop. *)
Lemma main_loop_invariant (mfuel : nat) (storage : StorageModel) :
  forall (fuel : nat) (st st' : State) (reabsorbed : Z),
    flags_ok storage (pkt st) = true ->
    main_loop fuel mfuel storage st = Ok (reabsorbed, st') ->
    flags_ok storage (pkt st') = true
    /\ close_line (pkt st') = 0
    /\ (last_line (pkt st) = 1 -> last_line (pkt st') = 1)
    /\ List.length (w_js (world st')) = List.length (w_js (world st))
    /\ List.length (w_nubars (world st')) = List.length (w_nubars (world st)).
Proof.
  induction fuel as [|fuel IH]; intros st st' reabsorbed Hf; cbn [main_loop].
  - discriminate.
  - destruct (iteration mfuel storage st) as [s| |] eqn:E; cbn [bind];
      try discriminate.
    destruct (iteration_keeps_flags _ _ _ _ Hf E) as (Hf' & Hl & Hc).
    destruct (iteration_keeps_lengths _ _ _ _ E) as (Hj & Hn).
    destruct s as [next|r last]; cbn [state_after] in * .
    + intros Hrun. destruct (IH _ _ _ Hf' Hrun) as (H1 & H2 & H3 & H4 & H5).
      repeat split; try assumption; try congruence. tauto.
    + intros [= <- <-]. repeat split; assumption.
Qed.

(** The loop returns a packet with its shell index and flags in range and
    [close_line] cleared; a [last_line] that was raised is still raised; the
    estimator arrays have kept their lengths. *)
Theorem main_loop_keeps_flags (fuel mfuel : nat) (storage : StorageModel)
  (st st' : State) (reabsorbed : Z) :
  flags_ok storage (pkt st) = true ->
  main_loop fuel mfuel storage st = Ok (reabsorbed, st') ->
  flags_ok storage (pkt st') = true
  /\ close_line (pkt st') = 0
  /\ (last_line (pkt st) = 1 -> last_line (pkt st') = 1)
  /\ List.length (w_js (world st')) = List.length (w_js (world st))
  /\ List.length (w_nubars (world st')) = List.length (w_nubars (world st)).
Proof. apply main_loop_invariant. Qed.

End Shapes.

(** *** The line handler *)

Section HandlerFacts.
Context {F : Type} {F64 : Float64 F} {M : MathH F} {RK : RandomKit F}.

(** In SCATTER mode the line handler does not consult the macro atom: it
    returns whatever the fuel of the macro atom, the tables of the macro
    atom may all be missing. *)
Theorem line_scatter_scatter_mode (storage : StorageModel) (st : State) :
  line_interaction_id storage = 0 ->
  exists st' : State,
    forall mfuel : nat, line_scatter mfuel storage st = Ok st'.
Proof.
  intros H0. unfold line_scatter. rewrite H0. cbn [Z.eqb].
  destruct (flt (tau_event (loc st)) _).
  - destruct (rk_double (mt_state (world st))) as [u1 rng1]. cbn [bind].
    destruct (rk_double rng1) as [u2 rng3]. eexists. intros mfuel. reflexivity.
  - eexists. intros mfuel. reflexivity.
Qed.

(** The line handler when no interaction happens: the packet is not moved,
    nothing is drawn, the estimators stand; the cursor advances by one line,
    to the length of the list at most, and [tau_event] is reduced by the
    optical depth of the line alone. *)
Theorem line_scatter_passes (mfuel : nat) (storage : StorageModel) (st : State) :
  let p := pkt st in
  let tau_line :=
    get f0 (line_lists_tau_sobolevs storage)
      (current_shell_id p * line_lists_tau_sobolevs_nd storage
       + current_line_id p) in
  let tau_electron :=
    sigma_thomson *. get f0 (electron_density storage) (current_shell_id p)
    *. d_line (loc st) in
  (tau_event (loc st) <. tau_line +. tau_electron) = false ->
  exists st' : State,
    line_scatter mfuel storage st = Ok st'
    /\ world st' = world st
    /\ current_r (pkt st') = current_r p
    /\ current_mu (pkt st') = current_mu p
    /\ current_nu (pkt st') = current_nu p
    /\ current_energy (pkt st') = current_energy p
    /\ current_shell_id (pkt st') = current_shell_id p
    /\ recently_crossed_boundary (pkt st') = recently_crossed_boundary p
    /\ current_line_id (pkt st')
       = Z.min (current_line_id p + 1) (no_of_lines storage)
    /\ (last_line (pkt st') = 1 <->
        no_of_lines storage <= current_line_id p + 1 \/ last_line p = 1)
    /\ tau_event (loc st') = tau_event (loc st) -. tau_line.
Proof.
  cbv zeta. intros H. unfold line_scatter. rewrite H.
  eexists. split; [reflexivity |].
  cbn [pkt loc world current_r current_mu current_nu current_energy
       current_shell_id recently_crossed_boundary current_line_id last_line
       tau_event].
  destruct (current_line_id (pkt st) + 1 >=? no_of_lines storage) eqn:E;
    [apply Z.geb_le in E | rewrite Z.geb_leb in E; apply Z.leb_gt in E];
    repeat split; try reflexivity; try lia; intros; try tauto; try lia.
Qed.



End HandlerFacts.

(** *** Crossing a boundary *)

Section Crossing.
Context {F : Type} {F64 : Float64 F} {M : MathH F} {RK : RandomKit F}.

(** The outer handler below the outermost shell goes on with the loop. *)
Lemma iteration_crosses_outwards (mfuel : nat) (storage : @StorageModel F)
  (st : @State F RK) :
  event_of storage st = Some OUTER ->
  current_shell_id (pkt st) < no_of_shells storage - 1 ->
  exists st', iteration mfuel storage st = Ok (Continue st').
Proof.
  intros He Hs. unfold iteration. rewrite He. cbn [handle].
  unfold propagate_outwards. rewrite candidate_distances_pkt.
  cbn [current_shell_id].
  destruct (current_shell_id (pkt st) <? no_of_shells storage - 1) eqn:E;
    [| apply Z.ltb_ge in E; lia].
  eexists. reflexivity.
Qed.

(** After the packet has crossed into the next shell outwards, the
    distance to the inner boundary is not computed: the next iteration
    takes the sentinel for it. *)
Theorem outward_crossing_skips_inner (mfuel : nat) (storage : StorageModel)
  (st st' : State) :
  event_of storage st = Some OUTER ->
  iteration mfuel storage st = Ok (Continue st') ->
  current_shell_id (pkt st') = current_shell_id (pkt st) + 1
  /\ recently_crossed_boundary (pkt st') = 1
  /\ d_inner (loc (candidate_distances storage st')) = miss_distance.
Proof.
  intros He. unfold iteration. rewrite He. cbn [handle].
  unfold propagate_outwards.
  pose proof (candidate_distances_pkt storage st) as Hp.
  destruct (current_shell_id (pkt (candidate_distances storage st))
            <? no_of_shells storage - 1); [| discriminate].
  intros [= <-]. rewrite Hp.
  cbn [pkt current_shell_id recently_crossed_boundary].
  split; [reflexivity |]. split; [reflexivity |].
  unfold candidate_distances at 1.
  cbn [pkt close_line recently_crossed_boundary last_line].
  destruct (close_line (pkt st) =? 1) eqn:E.
  - cbn [Z.eqb]. destruct (if last_line (pkt st) =? 1 then _ else _).
    reflexivity.
  - rewrite E. destruct (if last_line (pkt st) =? 1 then _ else _).
    reflexivity.
Qed.

End Crossing.

(** ** The driver *)

Section DriverFacts.
Context {F : Type} {F64 : Float64 F} {M : MathH F} {RK : RandomKit F}.

Lemma start_packet_flags (storage : StorageModel) (i cl : Z) (p : Packet) :
  1 <= no_of_shells storage -> cl = 0 \/ cl = 1 ->
  start_packet storage i cl = Ok p ->
  flags_ok storage p = true.
Proof.
  intros HS Hcl. unfold start_packet.
  destruct (binary_search _ _ _ _) as [k|]; [| discriminate].
  intros [= <-]. apply flags_ok_iff.
  cbn [current_shell_id last_line close_line recently_crossed_boundary].
  destruct (k =? no_of_lines storage); repeat split; try lia; auto.
Qed.

Lemma record_outcome_lengths (i reabsorbed : Z) (nu energy : F)
  (nus energies : list F) :
  List.length (fst (record_outcome i reabsorbed nu energy nus energies))
  = List.length nus
  /\ List.length (snd (record_outcome i reabsorbed nu energy nus energies))
     = List.length energies.
Proof.
  unfold record_outcome.
  destruct (reabsorbed =? 1); [| destruct (reabsorbed =? 0)]; cbn [fst snd];
    rewrite ?set_length; split; reflexivity.
Qed.

Lemma packet_body_keeps_shape (fuel mfuel : nat) (storage : StorageModel)
  (i : Z) (dr dr' : Driver) :
  1 <= no_of_shells storage ->
  driver_close_line dr = 0 ->
  packet_body fuel mfuel storage i dr = Ok dr' ->
  driver_close_line dr' = 0
  /\ List.length (output_nus dr') = List.length (output_nus dr)
  /\ List.length (output_energies dr') = List.length (output_energies dr)
  /\ List.length (w_js (driver_world dr'))
     = List.length (w_js (driver_world dr))
  /\ List.length (w_nubars (driver_world dr'))
     = List.length (w_nubars (driver_world dr)).
Proof.
  intros HS Hcl. unfold packet_body.
  destruct (Z.quot (no_of_packets storage) 5 =? 0); [discriminate |].
  destruct (start_packet storage i (driver_close_line dr)) as [p| |] eqn:Hp;
    cbn [bind]; try discriminate.
  destruct (montecarlo_one_packet fuel mfuel storage p _ 0)
    as [[reabsorbed st]| |] eqn:Hrun; cbn [bind]; try discriminate.
  pose proof (record_outcome_lengths i reabsorbed (current_nu (pkt st))
                (current_energy (pkt st)) (output_nus dr)
                (output_energies dr)) as [Hn He].
  destruct (record_outcome _ _ _ _ _ _) as [nus energies].
  cbn [fst snd] in Hn, He. intros [= <-].
  cbn [driver_close_line output_nus output_energies driver_world].
  unfold montecarlo_one_packet in Hrun.
  assert (Hf : flags_ok storage
                 (pkt (initial_state p (announce storage i (driver_world dr))))
               = true).
  { unfold initial_state. destruct (rk_double _). cbn [pkt].
    apply (start_packet_flags storage i (driver_close_line dr)); try assumption.
    left. exact Hcl. }
  destruct (main_loop_invariant _ _ _ _ _ _ Hf Hrun)
    as (_ & Hc & _ & Hj & Hnb).
  unfold initial_state in Hj, Hnb. destruct (rk_double _) in Hj, Hnb.
  cbn [world w_js w_nubars announce] in Hj, Hnb.
  repeat split; assumption.
Qed.

(** Over any run of packets the driver hands [close_line = 0] from one
    packet to the next, and the output and estimator arrays keep their
    lengths. *)
Theorem packets_loop_keeps_shape (fuel mfuel : nat) (storage : StorageModel) :
  forall (range : list nat) (dr dr' : Driver),
    1 <= no_of_shells storage ->
    driver_close_line dr = 0 ->
    packets_loop fuel mfuel storage range dr = Ok dr' ->
    driver_close_line dr' = 0
    /\ List.length (output_nus dr') = List.length (output_nus dr)
    /\ List.length (output_energies dr') = List.length (output_energies dr)
    /\ List.length (w_js (driver_world dr'))
       = List.length (w_js (driver_world dr))
    /\ List.length (w_nubars (driver_world dr'))
       = List.length (w_nubars (driver_world dr)).
Proof.
  induction range as [|i rest IH]; intros dr dr' HS Hcl; cbn [packets_loop].
  - intros [= <-]. repeat split. exact Hcl.
  - destruct (packet_body fuel mfuel storage (Z.of_nat i) dr) as [dr1| |] eqn:E;
      cbn [bind]; try discriminate.
    destruct (packet_body_keeps_shape _ _ _ _ _ _ HS Hcl E)
      as (H1 & H2 & H3 & H4 & H5).
    intros Hrest. destruct (IH _ _ HS H1 Hrest) as (G1 & G2 & G3 & G4 & G5).
    repeat split; congruence.
Qed.

(** With no packet the driver returns empty outputs and the zero
    estimators, without a draw and without a line printed. *)
Theorem montecarlo_radial1d_no_packets (fuel mfuel : nat) (model : @Model F)
  (seed : rk_state) :
  packet_src_packet_nus model = [] ->
  montecarlo_radial1d fuel mfuel model seed
  = Ok ([], [], zeros (model_no_of_shells model),
        zeros (model_no_of_shells model),
        mkWorld (zeros (model_no_of_shells model))
          (zeros (model_no_of_shells model)) seed []).
Proof.
  intros HN. unfold montecarlo_radial1d.
  change (no_of_packets (StorageModel_init model))
    with (zlength (packet_src_packet_nus model)).
  rewrite HN. reflexivity.
Qed.

(** With one to four packets the driver faults at the progress line of the
    first packet, whatever the model holds otherwise: the period of the
    progress line, a fifth of the number of packets, is zero. *)
Theorem montecarlo_radial1d_under_five_packets (fuel mfuel : nat)
  (model : @Model F) (seed : rk_state) :
  1 <= zlength (packet_src_packet_nus model) <= 4 ->
  montecarlo_radial1d fuel mfuel model seed = Fault.
Proof.
  intros HN. unfold montecarlo_radial1d.
  change (no_of_packets (StorageModel_init model))
    with (zlength (packet_src_packet_nus model)) in * .
  destruct (Z.to_nat (zlength (packet_src_packet_nus model))) as [|n] eqn:En;
    [lia |].
  cbn [seq packets_loop]. unfold packet_body.
  change (no_of_packets (StorageModel_init model))
    with (zlength (packet_src_packet_nus model)).
  assert (Hq : (Z.quot (zlength (packet_src_packet_nus model)) 5 =? 0) = true).
  { apply Z.eqb_eq. apply Z.quot_small. lia. }
  rewrite Hq. reflexivity.
Qed.

(** How the driver starts a packet, by the length [L] of the line list: up
    to two lines the cursor is 1 whatever the frequency, and [last_line] is
    raised exactly when there is one line. *)
Theorem start_packet_by_length (storage : StorageModel) (i cl : Z) (p : Packet) :
  0 <= no_of_lines storage ->
  start_packet storage i cl = Ok p ->
  1 <= current_line_id p
  /\ (no_of_lines storage <= 2 -> current_line_id p = 1)
  /\ (2 <= no_of_lines storage -> current_line_id p <= no_of_lines storage - 1)
  /\ (last_line p = 1 <-> no_of_lines storage = 1)
  /\ (last_line p = 0 <-> no_of_lines storage <> 1).
Proof.
  intros HL. unfold start_packet.
  destruct (binary_search _ _ _ _) as [k|] eqn:E; [| discriminate].
  intros [= <-]. cbn [current_line_id last_line].
  destruct (Z_le_gt_dec (no_of_lines storage) 2) as [Hs|Hb].
  - rewrite binary_search_short in E by exact Hs. injection E as <-.
    destruct (1 =? no_of_lines storage) eqn:K;
      [apply Z.eqb_eq in K | apply Z.eqb_neq in K];
      repeat split; intros; try lia; try congruence.
  - apply binary_search_bracket in E; [| lia].
    destruct (k =? no_of_lines storage) eqn:K;
      [apply Z.eqb_eq in K | apply Z.eqb_neq in K];
      repeat split; intros; try lia; try congruence.
Qed.

End DriverFacts.

(** *** SCATTER mode *)

Section NoFault.
Context {F : Type} {F64 : Float64 F} {M : MathH F} {RK : RandomKit F}.

Lemma iteration_scatter_no_fault (mfuel : nat) (storage : @StorageModel F)
  (st : @State F RK) :
  line_interaction_id storage = 0 ->
  iteration mfuel storage st <> Fault.
Proof.
  intros H0. unfold iteration.
  destruct (event_of storage st) as [[ | | | ]|]; cbn [handle];
    try discriminate.
  unfold line_scatter. rewrite H0. cbn [Z.eqb].
  destruct (flt _ _).
  - destruct (rk_double _) as [u1 rng1]. cbn [bind].
    destruct (rk_double rng1) as [u2 rng3]. cbn [bind]. discriminate.
  - cbn [bind]. discriminate.
Qed.

Lemma main_loop_scatter_no_fault (mfuel : nat) (storage : @StorageModel F) :
  line_interaction_id storage = 0 ->
  forall (fuel : nat) (st : @State F RK),
    main_loop fuel mfuel storage st <> Fault.
Proof.
  intros H0. induction fuel as [|fuel IH]; intros st; cbn [main_loop].
  - discriminate.
  - pose proof (iteration_scatter_no_fault mfuel storage st H0) as Hi.
    destruct (iteration mfuel storage st) as [[next|r last]| |]; cbn [bind];
      [apply IH | discriminate | congruence | discriminate].
Qed.

Lemma packets_loop_scatter_no_fault (fuel mfuel : nat)
  (storage : @StorageModel F) :
  line_interaction_id storage = 0 ->
  5 <= no_of_packets storage ->
  forall (range : list nat) (dr : @Driver F RK),
    packets_loop fuel mfuel storage range dr <> Fault.
Proof.
  intros H0 HN. induction range as [|i rest IH]; intros dr;
    cbn [packets_loop].
  - discriminate.
  - assert (Hb : packet_body fuel mfuel storage (Z.of_nat i) dr <> Fault).
    { unfold packet_body.
      destruct (Z.quot (no_of_packets storage) 5 =? 0) eqn:Hq.
      - apply Z.eqb_eq in Hq.
        pose proof (Z.quot_le_lower_bound (no_of_packets storage) 5 1
                      ltac:(lia) ltac:(lia)).
        lia.
      - unfold start_packet.
        destruct (binary_search _ _ _ _); cbn [bind]; [| discriminate].
        unfold montecarlo_one_packet.
        match goal with
        | |- context [main_loop ?a ?b ?c ?d] =>
            pose proof (main_loop_scatter_no_fault b c H0 a d) as Hm;
            destruct (main_loop a b c d) as [[reab st]| |]
        end; cbn [bind]; [| congruence | discriminate].
        destruct (record_outcome _ _ _ _ _ _). discriminate. }
    destruct (packet_body fuel mfuel storage (Z.of_nat i) dr) as [dr1| |];
      cbn [bind]; [apply IH | congruence | discriminate].
Qed.

(** In SCATTER mode, with five packets or more, the driver never faults:
    it returns, or runs for as long as there is fuel; it reads through no
    NULL table and takes no remainder by zero. *)
Theorem montecarlo_radial1d_scatter_no_fault (fuel mfuel : nat)
  (model : @Model F) (seed : rk_state) :
  model_line_interaction_id model = 0 ->
  5 <= zlength (packet_src_packet_nus model) ->
  (exists result, montecarlo_radial1d fuel mfuel model seed = Ok result)
  \/ montecarlo_radial1d fuel mfuel model seed = OutOfFuel.
Proof.
  intros H0 HN. unfold montecarlo_radial1d.
  match goal with
  | |- context [packets_loop ?a ?b ?c ?d ?e] =>
      pose proof (packets_loop_scatter_no_fault a b c H0 HN d e) as Hp;
      destruct (packets_loop a b c d e) as [dr'| |]
  end; cbn [bind];
    [left; eexists; reflexivity | congruence | right; reflexivity].
Qed.

End NoFault.

(** ** Exact arithmetic *)

Section ExactGeometry.
Local Open Scope R_scope.

Lemma Rleb_false (a b : R) : b < a -> Rleb a b = false.
Proof. intros H. unfold Rleb. destruct (Rle_dec a b); [lra | reflexivity]. Qed.

(** Radius and direction cosine after a move by a positive distance. *)
Lemma moved_radius_exact (r mu nu energy d : R) (js nubars : list R)
  (inverse_t_exp : R) (cur_zone_id : Z) :
  0 < d ->
  let m := move_packet r mu nu energy d js nubars inverse_t_exp cur_zone_id in
  mv_r m = R_sqrt.sqrt (r * r + d * d + 2 * r * d * mu)
  /\ mv_mu m = (mu * r + d) / mv_r m.
Proof.
  intros Hd.
  destruct (move_packet_positive (F64:=exact) r mu nu energy d js nubars inverse_t_exp
              cur_zone_id (Rleb_false d 0 Hd)) as (_ & Hr & Hmu & _).
  split; [exact Hr | exact Hmu].
Qed.

(** A move by the distance to the outer boundary ends on the outer
    boundary. *)
Theorem move_to_outer_boundary_exact (r mu nu energy r_out inverse_t_exp : R)
  (js nubars : list R) (cur_zone_id : Z) :
  0 <= r <= r_out -> -1 <= mu <= 1 ->
  0 < compute_distance2outer r mu r_out ->
  mv_r (move_packet r mu nu energy (compute_distance2outer r mu r_out) js
          nubars inverse_t_exp cur_zone_id) = r_out.
Proof.
  intros Hr Hmu Hd.
  destruct (moved_radius_exact r mu nu energy _ js nubars inverse_t_exp
              cur_zone_id Hd) as [-> _].
  unfold compute_distance2outer in * . real_ops.
  set (disc := r_out * r_out + (mu * mu - 1) * (r * r)) in * .
  assert (H0 : 0 <= disc) by (unfold disc; nra).
  pose proof (sqrt_sqrt disc H0) as Hs.
  set (s := R_sqrt.sqrt disc) in * .
  replace (r * r + (s - r * mu) * (s - r * mu) + 2 * r * (s - r * mu) * mu)
    with (r_out * r_out) by (unfold disc in Hs; nra).
  apply sqrt_square. lra.
Qed.

(** A move by the distance to the inner boundary, where the line of flight
    meets it, ends on the inner boundary. *)
Theorem move_to_inner_boundary_exact (r mu nu energy r_in inverse_t_exp : R)
  (js nubars : list R) (cur_zone_id : Z) :
  0 <= r_in -> mu < 0 ->
  0 <= r_in * r_in + r * r * (mu * mu - 1) ->
  0 < compute_distance2inner r mu r_in ->
  mv_r (move_packet r mu nu energy (compute_distance2inner r mu r_in) js
          nubars inverse_t_exp cur_zone_id) = r_in.
Proof.
  intros Hin Hmu Hc Hd.
  destruct (moved_radius_exact r mu nu energy _ js nubars inverse_t_exp
              cur_zone_id Hd) as [-> _].
  unfold compute_distance2inner in * . real_ops.
  set (check := r_in * r_in + r * r * (mu * mu - 1)) in * .
  rewrite (Rltb_false check 0) in * by lra.
  rewrite (Rltb_true mu 0) in * by lra.
  pose proof (sqrt_sqrt check Hc) as Hs.
  set (s := R_sqrt.sqrt check) in * .
  replace (r * r + (- r * mu - s) * (- r * mu - s)
           + 2 * r * (- r * mu - s) * mu)
    with (r_in * r_in) by (unfold check in Hs; nra).
  apply sqrt_square. lra.
Qed.

(** A move no longer than the distance to the outer boundary, and no longer
    than the distance to the inner one, keeps the packet between the two
    radii. *)
Theorem move_packet_stays_in_shell_exact (r mu nu energy d r_in r_out
  inverse_t_exp : R) (js nubars : list R) (cur_zone_id : Z) :
  0 <= r_in -> r_in <= r <= r_out -> -1 <= mu <= 1 ->
  0 < d ->
  d <= compute_distance2outer r mu r_out ->
  d <= compute_distance2inner r mu r_in ->
  r_in <= mv_r (move_packet r mu nu energy d js nubars inverse_t_exp
                  cur_zone_id) <= r_out.
Proof.
  intros Hin Hr Hmu Hd Hout Hinner.
  destruct (moved_radius_exact r mu nu energy d js nubars inverse_t_exp
              cur_zone_id Hd) as [-> _].
  set (q := r * r + d * d + 2 * r * d * mu).
  assert (Hup : q <= r_out * r_out).
  { unfold compute_distance2outer in Hout. real_ops.
    set (disc := r_out * r_out + (mu * mu - 1) * (r * r)) in * .
    assert (H0 : 0 <= disc) by (unfold disc; nra).
    pose proof (sqrt_sqrt disc H0) as Hs. pose proof (sqrt_pos disc) as Hp.
    set (s := R_sqrt.sqrt disc) in * .
    assert (Hrm : - (r * mu) <= s).
    { destruct (Rle_dec (- (r * mu)) 0); [lra |].
      apply Rsqr_incr_0_var; [unfold Rsqr; unfold disc in Hs; nra | lra]. }
    assert (Hprod : 0 <= (d - (- (r * mu) - s)) * ((- (r * mu) + s) - d))
      by (apply Rmult_le_pos; lra).
    unfold q. unfold disc in Hs. nra. }
  assert (Hlow : r_in * r_in <= q).
  { unfold compute_distance2inner in Hinner. real_ops.
    set (check := r_in * r_in + r * r * (mu * mu - 1)) in * .
    destruct (Rlt_dec check 0) as [Hneg|Hpos].
    - pose proof (Rle_0_sqr (d + r * mu)) as Hsq. unfold Rsqr in Hsq.
      unfold q. unfold check in Hneg. nra.
    - rewrite (Rltb_false check 0) in Hinner by lra.
      destruct (Rlt_dec mu 0) as [Hm|Hm].
      + rewrite (Rltb_true mu 0) in Hinner by lra.
        pose proof (sqrt_sqrt check ltac:(lra)) as Hs.
        pose proof (sqrt_pos check) as Hp.
        set (s := R_sqrt.sqrt check) in * .
        assert (Hprod : 0 <= ((- (r * mu) - s) - d) * ((- (r * mu) + s) - d))
          by (apply Rmult_le_pos; lra).
        unfold q. unfold check in Hs. nra.
      + assert (0 <= r * d * mu)
          by (apply Rmult_le_pos; [apply Rmult_le_pos |]; lra).
        assert (r_in * r_in <= r * r) by nra.
        unfold q. nra. }
  split.
  - rewrite <- (sqrt_square r_in) by lra. apply sqrt_le_1_alt. exact Hlow.
  - rewrite <- (sqrt_square r_out) by lra. apply sqrt_le_1_alt. exact Hup.
Qed.

(** The geometry of a move: the new radius is the third side of the
    triangle, the new direction cosine stays in [-1, 1], and the radial
    projection advances by the distance. *)
Theorem move_packet_geometry_exact (r mu nu energy d inverse_t_exp : R)
  (js nubars : list R) (cur_zone_id : Z) :
  -1 <= mu <= 1 -> 0 < d ->
  0 < r * r + d * d + 2 * r * d * mu ->
  let m := move_packet r mu nu energy d js nubars inverse_t_exp cur_zone_id in
  0 < mv_r m
  /\ mv_r m * mv_r m = r * r + d * d + 2 * r * d * mu
  /\ mv_r m * mv_mu m = mu * r + d
  /\ -1 <= mv_mu m <= 1.
Proof.
  intros Hmu Hd Hq. cbv zeta.
  destruct (moved_radius_exact r mu nu energy d js nubars inverse_t_exp
              cur_zone_id Hd) as [Hr Hm].
  rewrite Hm, Hr.
  set (q := r * r + d * d + 2 * r * d * mu) in * .
  pose proof (sqrt_lt_R0 q Hq) as Hp.
  pose proof (sqrt_sqrt q ltac:(lra)) as Hs.
  set (s := R_sqrt.sqrt q) in * .
  assert (Hprod : s * ((mu * r + d) / s) = mu * r + d) by (field; lra).
  assert (Hperp : 0 <= r * r * (1 - mu * mu))
    by (apply Rmult_le_pos; nra).
  assert (Hsq : Rsqr (mu * r + d) <= Rsqr s)
    by (unfold Rsqr; unfold q in Hs; nra).
  apply Rsqr_le_abs_0 in Hsq. rewrite (Rabs_pos_eq s) in Hsq by lra.
  assert (Hb : - s <= mu * r + d <= s)
    by (unfold Rabs in Hsq; destruct (Rcase_abs (mu * r + d)); lra).
  repeat split; try assumption.
  - apply Rmult_le_reg_l with s; [exact Hp |]. rewrite Hprod. lra.
  - apply Rmult_le_reg_l with s; [exact Hp |]. rewrite Hprod. lra.
Qed.

(** A move by the distance to the line, when that distance is positive and
    the move does not end at the centre (the new radius, the root of
    [r^2 + d^2 + 2 r d mu], is not zero), brings the packet to the point
    where its comoving frequency is the frequency of the line. *)
Theorem move_to_line_exact (r mu nu energy nu_line t_exp last_line next_line
  : R) (js nubars : list R) (cur_zone_id : Z) :
  nu <> 0 -> t_exp <> 0 ->
  let d := fst (compute_distance2line r mu nu nu_line t_exp (1 / t_exp)
                  last_line next_line cur_zone_id) in
  0 < d -> 0 < r * r + d * d + 2 * r * d * mu ->
  let m := move_packet r mu nu energy d js nubars (1 / t_exp) cur_zone_id in
  nu * (1 - mv_mu m * mv_r m * (1 / t_exp) * inverse_c) = nu_line.
Proof.
  intros Hnu Ht d Hd Hq m.
  destruct (moved_radius_exact r mu nu energy d js nubars (1 / t_exp)
              cur_zone_id Hd) as [Hr Hm].
  fold m in Hr, Hm.
  pose proof (sqrt_lt_R0 _ Hq) as Hp. rewrite <- Hr in Hp.
  assert (Hprod : mv_mu m * mv_r m = mu * r + d).
  { rewrite Hm. field. lra. }
  rewrite Hprod. unfold d, compute_distance2line. cbn [fst]. real_ops.
  field. repeat split; assumption.
Qed.

(** Where the line of flight meets the inner boundary, it meets it before
    the outer one, at a non-negative distance. *)
Theorem distance2inner_before_outer_exact (r mu r_in r_out : R) :
  0 <= r_in -> r_in <= r <= r_out -> mu < 0 ->
  0 <= r_in * r_in + r * r * (mu * mu - 1) ->
  0 <= compute_distance2inner r mu r_in
    <= compute_distance2outer r mu r_out.
Proof.
  intros Hin Hr Hmu Hc.
  unfold compute_distance2inner, compute_distance2outer. real_ops.
  set (check := r_in * r_in + r * r * (mu * mu - 1)) in * .
  rewrite (Rltb_false check 0) by lra. rewrite (Rltb_true mu 0) by lra.
  pose proof (sqrt_sqrt check Hc) as Hs. pose proof (sqrt_pos check) as Hp.
  pose proof (sqrt_pos (r_out * r_out + (mu * mu - 1) * (r * r))) as Hp'.
  set (s := R_sqrt.sqrt check) in * .
  split; [| lra].
  assert (s <= - (r * mu)); [| lra].
  apply Rsqr_incr_0_var; [unfold Rsqr; unfold check in Hs; nra | nra].
Qed.

End ExactGeometry.

Section ExactMore.
Local Open Scope R_scope.

(** Electron scattering is coherent: it changes the frequency and the
    energy of the packet by one factor, so their ratio stands; and the
    frequency after the event, seen with the Doppler factor of the new
    direction at the new radius, is the frequency before the event seen
    with the Doppler factor [move_packet] returned. *)
Theorem electron_scatter_coherent_exact (storage : StorageModel)
  (st : @State R coin) :
  let p := pkt st in
  let m := move_packet (current_r p) (current_mu p) (current_nu p)
             (current_energy p) (d_electron (loc st)) (w_js (world st))
             (w_nubars (world st)) (inverse_time_explosion storage)
             (current_shell_id p) in
  let st' := electron_scatter storage st in
  let D' := 1 - current_mu (pkt st') * current_r (pkt st')
                * inverse_time_explosion storage * inverse_c in
  current_nu (pkt st') * current_energy p
  = current_energy (pkt st') * current_nu p
  /\ current_r (pkt st') = mv_r m
  /\ (D' <> 0 -> current_nu (pkt st') * D' = current_nu p * mv_doppler m).
Proof.
  cbv zeta. unfold electron_scatter.
  destruct (rk_double (mt_state (world st))) as [u1 rng1].
  destruct (rk_double rng1) as [u2 rng2].
  cbn [pkt current_nu current_energy current_mu current_r].
  generalize (move_packet (current_r (pkt st)) (current_mu (pkt st))
                (current_nu (pkt st)) (current_energy (pkt st))
                (d_electron (loc st)) (w_js (world st)) (w_nubars (world st))
                (inverse_time_explosion storage) (current_shell_id (pkt st))).
  intros m. real_ops.
  split; [ring |]. split; [reflexivity |].
  generalize (1 - (2 * u1 - 1) * mv_r m * inverse_time_explosion storage
                  * (1 / 29979245800)).
  intros X HX. field. exact HX.
Qed.


(** The distance to the next electron scattering, computed with the
    reciprocal density of the storage, spans the optical depth [tau_event]
    as the line handler measures the electron optical depth of a path. *)
Theorem distance2electron_optical_depth_exact (model : @Model R) (r mu tau : R)
  (shell : Z) :
  let storage := StorageModel_init model in
  (0 <= shell < Z.of_nat (List.length (model_electron_density model)))%Z ->
  get f0 (electron_density storage) shell <> 0 ->
  sigma_thomson * get f0 (electron_density storage) shell
  * compute_distance2electron r mu tau
      (get f0 (inverse_electron_density storage) shell)
  = tau.
Proof.
  cbv zeta. intros Hs Hne.
  cbn [StorageModel_init electron_density inverse_electron_density] in * .
  rewrite (get_map (fun ne => f1 /. ne) f0 f0) by exact Hs.
  unfold compute_distance2electron. real_ops. field. split; [lra | exact Hne].
Qed.

(** The sign of the recorded frequency is the flag: for a positive
    frequency and a flag 0 or 1 the entry written at [i] is negative
    exactly when the packet was reabsorbed, its absolute value is the
    frequency, and no other entry is touched. *)
Theorem record_outcome_sign_exact (i reabsorbed : Z) (nu energy : R)
  (nus energies : list R) :
  (0 <= i < Z.of_nat (List.length nus))%Z ->
  0 < nu ->
  reabsorbed = 0%Z \/ reabsorbed = 1%Z ->
  let nus' := fst (record_outcome i reabsorbed nu energy nus energies) in
  (get f0 nus' i < 0 <-> reabsorbed = 1%Z)
  /\ Rabs (get f0 nus' i) = nu
  /\ forall k : Z, k <> i -> get f0 nus' k = get f0 nus k.
Proof.
  intros Hi Hnu [-> | ->]; cbv zeta; unfold record_outcome;
    [change (0 =? 1)%Z with false; change (0 =? 0)%Z with true
    | change (1 =? 1)%Z with true];
    cbn [fst]; rewrite get_set_same by exact Hi; real_ops.
  - split; [split; [lra | discriminate] |].
    split; [apply Rabs_pos_eq; lra |].
    intros k Hk. apply get_set_other. congruence.
  - split; [split; [reflexivity | lra] |].
    split; [rewrite Rabs_Ropp; apply Rabs_pos_eq; lra |].
    intros k Hk. apply get_set_other. congruence.
Qed.

(** What the search finds in a strictly decreasing table of two lines or
    more: every entry from index 1 up to the result is at or above
    [nu_insert], every entry from the result up to the last but one is
    below it.  The first and the last entry are never compared. *)
Theorem binary_search_sorted_exact (nu : list R) (nu_insert : R) (i : Z) :
  let L := Z.of_nat (List.length nu) in
  (2 <= L)%Z ->
  (forall j k : Z, (0 <= j < k)%Z -> (k < L)%Z -> get f0 nu k < get f0 nu j) ->
  binary_search nu nu_insert 0 L = Some i ->
  (1 <= i <= L - 1)%Z
  /\ (forall j : Z, (1 <= j < i)%Z -> nu_insert <= get f0 nu j)
  /\ (forall j : Z, (i <= j < L - 1)%Z -> get f0 nu j < nu_insert).
Proof.
  cbv zeta. intros HL Hdec Hrun.
  apply binary_search_bracket in Hrun; [| exact HL].
  destruct Hrun as (Hi & Hlow & Hhigh). split; [exact Hi |]. split.
  - intros j Hj. destruct Hlow as [-> | Hlow]; [lia |].
    change (Rltb (get f0 nu (i - 1)) nu_insert = false) in Hlow.
    unfold Rltb in Hlow. destruct (Rlt_dec _ _) as [|Hn]; [discriminate |].
    destruct (Z.eq_dec j (i - 1)) as [-> | Hne]; [lra |].
    pose proof (Hdec j (i - 1)%Z ltac:(lia) ltac:(lia)). lra.
  - intros j Hj. destruct Hhigh as [-> | Hhigh]; [lia |].
    change (Rltb (get f0 nu i) nu_insert = true) in Hhigh.
    unfold Rltb in Hhigh. destruct (Rlt_dec _ _) as [Hlt|]; [| discriminate].
    destruct (Z.eq_dec j i) as [-> | Hne]; [exact Hlt |].
    pose proof (Hdec i j ltac:(lia) ltac:(lia)). lra.
Qed.

End ExactMore.

Section ExactCloseLine.
Local Open Scope R_scope.

(** A pending close line is taken next: with [close_line] raised the
    distance to the line is zero, the three other distances are kept from
    the iteration before, and, those being positive, the line handler is
    the event. *)
Theorem close_line_is_next_exact (storage : StorageModel)
  (st : @State R coin) :
  close_line (pkt st) = 1%Z ->
  0 < d_inner (loc st) -> 0 < d_outer (loc st) -> 0 < d_electron (loc st) ->
  let st1 := candidate_distances storage st in
  event_of storage st = Some LINE
  /\ d_line (loc st1) = 0
  /\ d_inner (loc st1) = d_inner (loc st)
  /\ d_outer (loc st1) = d_outer (loc st)
  /\ d_electron (loc st1) = d_electron (loc st)
  /\ close_line (pkt st1) = 0%Z.
Proof.
  intros Hc Hi Ho He. cbv zeta. unfold event_of, candidate_distances.
  rewrite Hc. cbn [Z.eqb Pos.eqb pkt loc d_line d_inner d_outer d_electron
                   close_line].
  split; [| repeat split].
  apply select_event_strict_minimum. real_ops. repeat split; assumption.
Qed.

End ExactCloseLine.

(** ** Instances *)

(** *** At the real numbers *)

Section TwoShells.
Context {F : Type} {F64 : Float64 F} {M : MathH F} {RK : RandomKit F}.

(** The locals after the distance computation of the first iteration in
    the inner shell of [two_shells]. *)
Lemma distances_two_shells (u : F) (w : World) (rng : rk_state) :
  rk_double (mt_state w) = (u, rng) ->
  loc (candidate_distances (StorageModel_init two_shells)
         (initial_state one_shell_packet w))
  = mkLocals miss_distance
      (compute_distance2outer cgs_c f1 (f2 *. cgs_c))
      (fst (compute_distance2line cgs_c f1 f2 (f1 /. f2) f4 (f1 /. f4) f4
              (f1 /. f4) 0))
      (compute_distance2electron cgs_c f1 (-. log u) (f1 /. f1))
      (-. log u) (f1 /. f2) 0.
Proof.
  intros Hu. unfold initial_state. rewrite Hu.
  unfold candidate_distances.
  cbn -[f4 f8 inverse_c compute_distance2outer compute_distance2line
        compute_distance2electron miss_distance].
  destruct (compute_distance2line _ _ _ _ _ _ _ _ _) as [d out].
  reflexivity.
Qed.

End TwoShells.

Section ExactWitnesses.
Local Open Scope R_scope.

Lemma distance2outer_radial (r r_out : R) :
  0 <= r_out -> compute_distance2outer r 1 r_out = r_out - r.
Proof.
  intros H. unfold compute_distance2outer. real_ops.
  replace (r_out * r_out + (1 * 1 - 1) * (r * r)) with (r_out * r_out) by lra.
  rewrite sqrt_square by exact H. lra.
Qed.

Lemma distance2inner_radial (r r_in : R) :
  0 <= r_in -> compute_distance2inner r (-1) r_in = r - r_in.
Proof.
  intros H. unfold compute_distance2inner. real_ops.
  replace (r_in * r_in + r * r * (-1 * -1 - 1)) with (r_in * r_in) by lra.
  rewrite (Rltb_false (r_in * r_in) 0) by nra.
  rewrite (Rltb_true (-1) 0) by lra.
  rewrite sqrt_square by exact H. lra.
Qed.

(** From radius 1, radially outwards, to the boundary at radius 2. *)
Lemma move_to_outer_boundary_exact_witness :
  mv_r (move_packet (F:=R) 1 1 2 1 (compute_distance2outer 1 1 2) [0] [0] 1
          0%Z) = 2.
Proof.
  apply (move_to_outer_boundary_exact 1 1 2 1 2 1 [0] [0] 0%Z);
    [lra | lra | rewrite distance2outer_radial; lra].
Defined.

(** From radius 2, radially inwards, to the boundary at radius 1. *)
Lemma move_to_inner_boundary_exact_witness :
  mv_r (move_packet (F:=R) 2 (-1) 2 1 (compute_distance2inner 2 (-1) 1) [0]
          [0] 1 0%Z) = 1.
Proof.
  apply (move_to_inner_boundary_exact 2 (-1) 2 1 1 1 [0] [0] 0%Z);
    [lra | lra | lra | rewrite distance2inner_radial; lra].
Defined.

(** A radial step of length 1 from radius 2 in the shell between the radii 1
    and 4. *)
Lemma move_packet_stays_in_shell_exact_witness :
  1 <= mv_r (move_packet (F:=R) 2 1 2 1 1 [0] [0] 1 0%Z) <= 4.
Proof.
  apply (move_packet_stays_in_shell_exact 2 1 2 1 1 1 4 1 [0] [0] 0%Z);
    [lra | lra | lra | lra
    | rewrite distance2outer_radial; lra
    | rewrite compute_distance2inner_sentinel;
      [real_ops; lra | apply Rltb_false; real_ops; lra]].
Defined.

(** A radial step of length 1 from radius 1. *)
Lemma move_packet_geometry_exact_witness :
  let m := move_packet (F:=R) 1 1 2 1 1 [0] [0] 1 0%Z in
  0 < mv_r m
  /\ mv_r m * mv_r m = 1 * 1 + 1 * 1 + 2 * 1 * 1 * 1
  /\ mv_r m * mv_mu m = 1 * 1 + 1
  /\ -1 <= mv_mu m <= 1.
Proof.
  apply (move_packet_geometry_exact 1 1 2 1 1 1 [0] [0] 0%Z); lra.
Defined.

Lemma distance2line_at_rest :
  fst (compute_distance2line (F:=R) 0 0 2 1 1 (1 / 1) 0 0 0%Z) = c / 2.
Proof. unfold compute_distance2line. cbn [fst]. real_ops. lra. Qed.

(** A packet of frequency 2 at rest at the centre, one second after the
    explosion, and a line at frequency 1. *)
Lemma move_to_line_exact_witness :
  let d := fst (compute_distance2line (F:=R) 0 0 2 1 1 (1 / 1) 0 0 0%Z) in
  let m := move_packet (F:=R) 0 0 2 1 d [0] [0] (1 / 1) 0%Z in
  2 * (1 - mv_mu m * mv_r m * (1 / 1) * inverse_c) = 1.
Proof.
  apply (move_to_line_exact 0 0 2 1 1 1 0 0 [0] [0] 0%Z);
    [lra | lra
    | rewrite distance2line_at_rest; real_ops; lra
    | rewrite distance2line_at_rest; real_ops; lra].
Defined.

(** Radially inwards from radius 2, between the radii 1 and 3. *)
Lemma distance2inner_before_outer_exact_witness :
  0 <= compute_distance2inner (F:=R) 2 (-1) 1
    <= compute_distance2outer (F:=R) 2 (-1) 3.
Proof.
  apply (distance2inner_before_outer_exact 2 (-1) 1 3); lra.
Defined.

End ExactWitnesses.

Section ExactRuns.
Local Open Scope R_scope.

(** The first packet of [free] in front of the event loop. *)
Lemma first_state_flags :
  flags_ok (StorageModel_init free)
    (pkt (initial_state one_shell_packet
            (announce (StorageModel_init free) 0 fresh_world))) = true.
Proof. unfold initial_state. destruct (rk_double _). reflexivity. Qed.

Lemma first_packet_free :
  exists dr',
    packet_body (F:=R) 1 0 (StorageModel_init free) 0
      (mkDriver (zeros 5) (zeros 5) 0 fresh_world) = Ok dr'.
Proof.
  destruct (main_loop_escapes 0 0 (StorageModel_init free)
              (initial_state one_shell_packet
                 (announce (StorageModel_init free) 0 fresh_world)))
    as (st' & Hrun & _).
  { apply event_of_free. reflexivity. }
  { unfold initial_state. destruct (rk_double _). cbn. lia. }
  unfold packet_body. cbn [driver_world driver_close_line].
  change (no_of_packets (StorageModel_init free)) with 5%Z.
  change (Z.quot 5 5 =? 0)%Z with false. cbv iota.
  assert (Hp : start_packet (StorageModel_init free) 0 0 = Ok one_shell_packet)
    by (apply start_packet_exact; real_ops; lra).
  rewrite Hp. cbn [bind].
  unfold montecarlo_one_packet. rewrite Hrun. cbn [bind].
  eexists. reflexivity.
Qed.

(** The first packet of [free], which escapes in its first iteration. *)
Lemma main_loop_keeps_flags_witness :
  exists st' : @State R coin,
    main_loop 1 0 (StorageModel_init free)
      (initial_state one_shell_packet
         (announce (StorageModel_init free) 0 fresh_world)) = Ok (0%Z, st')
    /\ flags_ok (StorageModel_init free) (pkt st') = true
    /\ close_line (pkt st') = 0%Z.
Proof.
  destruct (main_loop_escapes 0 0 (StorageModel_init free)
              (initial_state one_shell_packet
                 (announce (StorageModel_init free) 0 fresh_world)))
    as (st' & Hrun & _).
  { apply event_of_free. reflexivity. }
  { unfold initial_state. destruct (rk_double _). cbn. lia. }
  exists st'. split; [exact Hrun |].
  destruct (main_loop_keeps_flags 1 0 (StorageModel_init free) _ st' 0%Z
              first_state_flags Hrun) as (H1 & H2 & _).
  split; [exact H1 | exact H2].
Defined.

(** The driver of [free] over its first packet. *)
Lemma packets_loop_keeps_shape_witness :
  exists dr' : @Driver R coin,
    packets_loop 1 0 (StorageModel_init free) [0%nat]
      (mkDriver (zeros 5) (zeros 5) 0 fresh_world) = Ok dr'
    /\ driver_close_line dr' = 0%Z
    /\ List.length (output_nus dr') = 5%nat
    /\ List.length (output_energies dr') = 5%nat.
Proof.
  destruct first_packet_free as (dr' & Hrun).
  assert (H : packets_loop 1 0 (StorageModel_init free) [0%nat]
                (mkDriver (zeros 5) (zeros 5) 0 fresh_world) = Ok dr').
  { cbn [packets_loop]. change (Z.of_nat 0) with 0%Z. rewrite Hrun.
    reflexivity. }
  exists dr'. split; [exact H |].
  assert (HS : (1 <= no_of_shells (StorageModel_init (F:=R) free))%Z)
    by (cbn; lia).
  destruct (packets_loop_keeps_shape 1 0 (StorageModel_init free) [0%nat]
              (mkDriver (zeros 5) (zeros 5) 0 fresh_world) dr' HS eq_refl H)
    as (H1 & H2 & H3 & _).
  split; [exact H1 |]. split; [exact H2 | exact H3].
Defined.

(** The first packet of [free], whose list has four lines. *)
Lemma start_packet_by_length_witness :
  start_packet (F:=R) (StorageModel_init free) 0 0 = Ok one_shell_packet
  /\ (1 <= current_line_id (one_shell_packet (F:=R)))%Z
  /\ last_line (one_shell_packet (F:=R)) = 0%Z.
Proof.
  assert (HL : (0 <= no_of_lines (StorageModel_init (F:=R) free))%Z)
    by (cbn; lia).
  assert (Hp : start_packet (F:=R) (StorageModel_init free) 0 0
               = Ok one_shell_packet)
    by (apply start_packet_exact; real_ops; lra).
  split; [exact Hp |].
  destruct (start_packet_by_length (StorageModel_init free) 0 0
              one_shell_packet HL Hp) as (H1 & _ & _ & _ & H5).
  split; [exact H1 |]. apply H5. cbn. lia.
Defined.

End ExactRuns.

Section ExactHandlers.
Local Open Scope R_scope.

(** [free] without its packets. *)
Lemma montecarlo_radial1d_no_packets_witness :
  montecarlo_radial1d (RK:=coin) 1 0 (fewer 0 free) []
  = Ok ([], [], [0], [0], mkWorld (RK:=coin) [0] [0] [] []).
Proof.
  exact (montecarlo_radial1d_no_packets (RK:=coin) 1 0 (fewer 0 free) []
           eq_refl).
Defined.

(** [free] with three of its packets. *)
Lemma montecarlo_radial1d_under_five_packets_witness :
  montecarlo_radial1d (RK:=coin) 1 0 (fewer 3 free) [] = Fault.
Proof.
  apply (montecarlo_radial1d_under_five_packets (RK:=coin) 1 0 (fewer 3 free)
           []).
  cbn. lia.
Defined.

(** [free] is in SCATTER mode. *)
Lemma line_scatter_scatter_mode_witness :
  exists st' : @State R coin,
    forall mfuel : nat,
      line_scatter mfuel (StorageModel_init free) (at_line 0 1 0) = Ok st'.
Proof.
  apply (line_scatter_scatter_mode (StorageModel_init free) (at_line 0 1 0)).
  reflexivity.
Defined.

Lemma tau_combined_at_line (d : R) :
  get f0 (line_lists_tau_sobolevs (StorageModel_init (F:=R) free))
    (0 * line_lists_tau_sobolevs_nd (StorageModel_init (F:=R) free) + 2)
  +. sigma_thomson
     *. get f0 (electron_density (StorageModel_init (F:=R) free)) 0%Z *. d
  = sigma_thomson * d.
Proof. change (0 + sigma_thomson * 1 * d = sigma_thomson * d). lra. Qed.

(** In front of a line of [free], which has no line opacity, at no distance:
    the optical depth 1 to the next event is not reached. *)
Lemma line_scatter_passes_witness :
  exists st' : @State R coin,
    line_scatter 0 (StorageModel_init free) (at_line 1 0 0) = Ok st'
    /\ world st' = fresh_world
    /\ current_line_id (pkt st') = 3%Z
    /\ tau_event (loc st') = 1 - 0.
Proof.
  assert (H : Rltb 1 (sigma_thomson * 0) = false)
    by (apply Rltb_false; lra).
  rewrite <- tau_combined_at_line in H.
  pose proof (line_scatter_passes 0 (StorageModel_init free) (at_line 1 0 0)
                H) as Hpass.
  destruct Hpass as (st' & Hrun & Hw & _ & _ & _ & _ & _ & _ & Hc & _ & Ht).
  exists st'. split; [exact Hrun |]. split; [exact Hw |].
  split; [exact Hc | exact Ht].
Defined.


(** A pending close line with the three other distances at 1. *)
Lemma close_line_is_next_exact_witness :
  event_of (StorageModel_init free) (at_line 1 1 1) = Some LINE
  /\ d_line (loc (candidate_distances (StorageModel_init free)
                    (at_line 1 1 1))) = 0.
Proof.
  destruct (close_line_is_next_exact (StorageModel_init free) (at_line 1 1 1)
              eq_refl ltac:(cbn; lra) ltac:(cbn; lra) ltac:(cbn; lra))
    as (H1 & H2 & _).
  split; [exact H1 | exact H2].
Defined.

(** Shell 0 of [tied], optical depth 3. *)
Lemma distance2electron_optical_depth_exact_witness :
  sigma_thomson
  * get f0 (electron_density (StorageModel_init (F:=R) tied)) 0%Z
  * compute_distance2electron 1 1 3
      (get f0 (inverse_electron_density (StorageModel_init (F:=R) tied)) 0%Z)
  = 3.
Proof.
  apply (distance2electron_optical_depth_exact tied 1 1 3 0%Z).
  - cbn. lia.
  - cbn. real_ops. lra.
Defined.

(** A reabsorbed packet of frequency 2, the first of two. *)
Lemma record_outcome_sign_exact_witness :
  let nus' := fst (record_outcome (F:=R) 0 1 2 1 [0; 0] [0; 0]) in
  (get f0 nus' 0%Z < 0 <-> 1%Z = 1%Z)
  /\ Rabs (get f0 nus' 0%Z) = 2
  /\ forall k : Z, k <> 0%Z -> get f0 nus' k = get f0 [0; 0] k.
Proof.
  apply (record_outcome_sign_exact 0 1 2 1 [0; 0] [0; 0]);
    [cbn; lia | lra | right; reflexivity].
Defined.

Lemma four_lines_decreasing (j k : Z) :
  (0 <= j < k)%Z -> (k < 4)%Z ->
  get (A:=R) f0 [4; 3; 2; 1] k < get f0 [4; 3; 2; 1] j.
Proof.
  intros Hj Hk.
  assert (Hc : (j = 0 /\ k = 1 \/ j = 0 /\ k = 2 \/ j = 0 /\ k = 3
                \/ j = 1 /\ k = 2 \/ j = 1 /\ k = 3 \/ j = 2 /\ k = 3)%Z)
    by lia.
  destruct Hc as [[-> ->]|[[-> ->]|[[-> ->]|[[-> ->]|[[-> ->]|[-> ->]]]]]];
    cbv [get Z.ltb Z.compare Z.to_nat Pos.to_nat Pos.iter_op Init.Nat.add nth];
    real_ops; lra.
Qed.

Lemma four_lines_search :
  binary_search (F:=R) [4; 3; 2; 1] (5 / 2) 0 4 = Some 2%Z.
Proof.
  unfold binary_search. change (Z.to_nat (4 - 0)) with 4%nat.
  cbn [binary_search_loop].
  change (4 - 0 >? 2)%Z with true. cbv iota.
  change (Z.quot (0 + 4) 2) with 2%Z.
  change (get f0 [4; 3; 2; 1] 2%Z) with 2.
  change (flt 2 (5 / 2)) with (Rltb 2 (5 / 2)).
  rewrite (Rltb_true 2 (5 / 2)) by lra.
  change (2 + 1 - 0 >? 2)%Z with true. cbv iota.
  change (Z.quot (0 + (2 + 1)) 2) with 1%Z.
  change (get f0 [4; 3; 2; 1] 1%Z) with 3.
  change (flt 3 (5 / 2)) with (Rltb 3 (5 / 2)).
  rewrite (Rltb_false 3 (5 / 2)) by lra.
  change (2 + 1 - 1 >? 2)%Z with false. cbv iota.
  reflexivity.
Qed.

(** The table [4; 3; 2; 1] and the frequency 5/2: the search returns 2. *)
Lemma binary_search_sorted_exact_witness :
  binary_search (F:=R) [4; 3; 2; 1] (5 / 2) 0 4 = Some 2%Z
  /\ (forall j : Z, (1 <= j < 2)%Z -> 5 / 2 <= get f0 [4; 3; 2; 1] j)
  /\ (forall j : Z, (2 <= j < 4 - 1)%Z -> get f0 [4; 3; 2; 1] j < 5 / 2).
Proof.
  split; [exact four_lines_search |].
  apply (binary_search_sorted_exact [4; 3; 2; 1] (5 / 2) 2%Z);
    [cbn; lia | exact four_lines_decreasing | exact four_lines_search].
Defined.

Lemma event_of_two_shells (w : @World R coin) :
  mt_state w = [] ->
  event_of (StorageModel_init two_shells) (initial_state one_shell_packet w)
  = Some OUTER.
Proof.
  intros Hw. unfold event_of.
  rewrite (distances_two_shells (1 / 2) w []) by (rewrite Hw; reflexivity).
  cbn [d_outer d_line d_inner d_electron].
  rewrite distance2outer_exact, distance2line_exact.
  apply select_event_strict_minimum.
  pose proof distance2electron_exact. repeat split; try assumption;
    real_ops; lra.
Qed.

(** The first packet of [two_shells] crosses from shell 0 into shell 1. *)
Lemma outward_crossing_skips_inner_witness :
  exists st' : @State R coin,
    iteration 0 (StorageModel_init two_shells)
      (initial_state one_shell_packet fresh_world) = Ok (Continue st')
    /\ current_shell_id (pkt st') = 1%Z
    /\ d_inner (loc (candidate_distances (StorageModel_init two_shells) st'))
       = miss_distance.
Proof.
  assert (He : event_of (StorageModel_init two_shells)
                 (initial_state one_shell_packet fresh_world) = Some OUTER)
    by (apply event_of_two_shells; reflexivity).
  destruct (iteration_crosses_outwards 0 (StorageModel_init two_shells)
              (initial_state one_shell_packet fresh_world) He)
    as (st' & Hrun).
  { unfold initial_state. destruct (rk_double _). cbn. lia. }
  exists st'. split; [exact Hrun |].
  destruct (outward_crossing_skips_inner 0 (StorageModel_init two_shells)
              (initial_state one_shell_packet fresh_world) st' He Hrun)
    as (H1 & _ & H3).
  split; [| exact H3]. rewrite H1.
  unfold initial_state. destruct (rk_double _). reflexivity.
Defined.

(** A scattering at no distance from the centre. *)
Lemma electron_scatter_coherent_exact_witness :
  let st' := electron_scatter (StorageModel_init tied) at_centre in
  current_nu (pkt st') * 1 = current_energy (pkt st') * 2
  /\ current_r (pkt st') = 0.
Proof.
  destruct (electron_scatter_coherent_exact (StorageModel_init tied) at_centre)
    as (H1 & H2 & _).
  cbv zeta. split; [exact H1 |]. rewrite H2.
  cbn [pkt at_centre current_r current_mu current_nu current_energy loc
       d_electron].
  rewrite move_packet_nonpositive; [reflexivity |].
  apply Rleb_true. real_ops. lra.
Defined.


(** [free] is in SCATTER mode and has five packets. *)
Lemma montecarlo_radial1d_scatter_no_fault_witness :
  (exists result,
     montecarlo_radial1d (F:=R) (RK:=coin) 1 0 free [] = Ok result)
  \/ montecarlo_radial1d (F:=R) (RK:=coin) 1 0 free [] = OutOfFuel.
Proof.
  apply (montecarlo_radial1d_scatter_no_fault (F:=R) (RK:=coin) 1 0 free []).
  - reflexivity.
  - cbn. lia.
Defined.

End ExactHandlers.

(** *** At binary64 *)


(** A block of three slots with the probabilities 1/4, 1/4 and 1/2, and the
    draw 3/8: slot 1 is selected. *)
Lemma macro_atom_block_selects_first_witness :
  macro_atom_block (F:=float) 3 (Some [0.25; 0.25; 0.5]%float) 3 0
    0.375%float 0%float 0 = Ok 1
  /\ exists n : nat,
       1 = 0 + Z.of_nat n /\ (n < 3)%nat
       /\ (block_sum [0.25; 0.25; 0.5]%float (0 * 3) 0%float 0 (S n)
           >. 0.375%float) = true
       /\ forall m : nat, (m < n)%nat ->
            (block_sum [0.25; 0.25; 0.5]%float (0 * 3) 0%float 0 (S m)
             >. 0.375%float) = false.
Proof.
  assert (H : macro_atom_block (F:=float) 3 (Some [0.25; 0.25; 0.5]%float) 3 0
                0.375%float 0%float 0 = Ok 1) by (vm_compute; reflexivity).
  split; [exact H |].
  exact (macro_atom_block_selects_first [0.25; 0.25; 0.5]%float 3 0
           0.375%float 3 0%float 0 1 H).
Defined.

(** The same block and draw, with fuel for two slots. *)
Lemma macro_atom_block_returns_witness :
  (1 < 2)%nat
  /\ (block_sum [0.25; 0.25; 0.5]%float (0 * 3) 0%float 0 2 >. 0.375%float)
     = true
  /\ exists i : Z,
       macro_atom_block (F:=float) 2 (Some [0.25; 0.25; 0.5]%float) 3 0
         0.375%float 0%float 0 = Ok i
       /\ 0 <= i <= 0 + Z.of_nat 1.
Proof.
  assert (H1 : (1 < 2)%nat) by lia.
  assert (H2 : (block_sum [0.25; 0.25; 0.5]%float (0 * 3) 0%float 0 2
                >. 0.375%float) = true) by (vm_compute; reflexivity).
  split; [exact H1 |]. split; [exact H2 |].
  exact (macro_atom_block_returns [0.25; 0.25; 0.5]%float 3 0 0.375%float
           1 2 0%float 0 H1 H2).
Defined.

(** A step of length 1 in a single shell with empty estimators. *)
Lemma move_packet_estimators_witness :
  (1 <=. 0)%float = false
  /\ 0 <= 0 < Z.of_nat (List.length [0%float])
  /\ get 0%float
       (mv_js (move_packet (F:=float) 1%float 0.5%float 2%float 1%float
                 1%float [0%float] [0%float] 0.25%float 0)) 0
     = (0 + 1 * (1 - 0.5 * 1 * 0.25 * inverse_c) * 1)%float.
Proof.
  assert (H1 : (1 <=. 0)%float = false) by reflexivity.
  assert (H2 : 0 <= 0 < Z.of_nat (List.length [0%float])) by (cbn; lia).
  split; [exact H1 |]. split; [exact H2 |].
  exact (proj1 (move_packet_estimators (F:=float) 1%float 0.5%float 2%float
                  1%float 1%float [0%float] [0%float] 0.25%float 0 H1 H2 H2)).
Defined.

(** The two-level atom, activated at level 0 with the draw 0.5: one round,
    which selects slot 0, an emission of line 1. *)
Lemma macro_atom_returns_emission_slot_witness :
  macro_run (RK:=coin64) [1%float] 1 (Some [-1]) (Some [0]) (Some [1])
    (Some [0; 1]) 0 0 [] 1 [].
Proof.
  assert (H : macro_atom (F:=float) (RK:=coin64) 1 0 (Some [1%float]) 1
                (Some [-1]) (Some [0]) (Some [1]) (Some [0; 1]) 0 []
              = Ok (1, [])) by (vm_compute; reflexivity).
  exact (proj1 (macro_atom_returns_emission_slot (RK:=coin64) [1%float] 1
                  (Some [-1]) (Some [0]) (Some [1]) (Some [0; 1]) 0 0 [] 1 [])
           (ex_intro _ 1%nat H)).
Defined.
